(** * King Tire inventory: the component's logic, embedded and verified

    A shallow embedding of [KingTireInventory] (a single React component over a
    Supabase table and storage bucket): the JavaScript values its state holds,
    the handlers [fetchTires], [resetForm], [handleSave], [handleEdit] and
    [handleDelete], and the render-time functions [filteredTires],
    [inventoryCount] and [downloadCSV].

    Conventions of the embedding.
    - A JavaScript string is a [string] whose characters are the code units
      below 256 (Latin-1); [toLowerCase] and [trim] are the ECMAScript
      functions restricted to that range.
    - A JavaScript number is a [number]: [NaN], a safe integer [Int z]
      (magnitude up to 2^53, the negative zero merged with zero), or any other
      double, carried by its [Number::toString] rendering.  Arithmetic and
      literal evaluation are exact on safe integers; outside them they are the
      engine's, the two operations of the class [Engine], and every theorem
      holds whatever they are.
    - An instant ([Date.now()], [new Date().toISOString()], a timestamptz
      column) is the number of milliseconds since the epoch, a [Z].
    - A handler is a function on a [world]: the component's state, the table
      and bucket behind the Supabase client, the requests sent and the toasts
      shown.  What the handler cannot decide (clock, random draw, the answer to
      [confirm], whether a request fails) comes in an [env]. *)

From Stdlib Require Import ZArith Bool List Lia.
From Stdlib Require Import Strings.Ascii Strings.String Numbers.DecimalString.
From Stdlib Require Import Sorting.Permutation Sorting.Sorted.
From Stdlib Require DecimalPos.
Import ListNotations.

Open Scope string_scope.
Open Scope Z_scope.

(* ================================================================== *)
(** ** Strings *)

Module JsString.

(** The double quote, which a string literal of this file cannot hold. *)
Definition dq : ascii := "034"%char.

Definition str1 (c : ascii) : string := String c EmptyString.

Definition code (c : ascii) : nat := nat_of_ascii c.

(** ECMAScript WhiteSpace and LineTerminator below 256: TAB, LF, VT, FF, CR,
    SP and NBSP.  These are what [trim] strips and what [StringToNumber]
    skips. *)
Definition is_space (c : ascii) : bool :=
  let n := code c in
  ((9 <=? n) && (n <=? 13) || (n =? 32) || (n =? 160))%nat.

(** [String.prototype.toLowerCase] on one code unit below 256: A-Z and the
    Latin-1 capitals (U+00C0-U+00DE without the multiplication sign) move up
    by 32. *)
Definition lower_char (c : ascii) : ascii :=
  let n := code c in
  if ((65 <=? n) && (n <=? 90)
      || (192 <=? n) && (n <=? 222) && negb (n =? 215))%nat
  then ascii_of_nat (n + 32) else c.

Fixpoint toLowerCase (s : string) : string :=
  match s with
  | EmptyString => EmptyString
  | String c r => String (lower_char c) (toLowerCase r)
  end.

Fixpoint trimStart (s : string) : string :=
  match s with
  | EmptyString => EmptyString
  | String c r => if is_space c then trimStart r else s
  end.

Definition is_empty (s : string) : bool :=
  match s with EmptyString => true | _ => false end.

Fixpoint trimEnd (s : string) : string :=
  match s with
  | EmptyString => EmptyString
  | String c r =>
      let r' := trimEnd r in
      if is_space c && is_empty r' then EmptyString else String c r'
  end.

Definition trim (s : string) : string := trimEnd (trimStart s).

(** [s.includes(q)]: [q] occurs in [s] at some position. *)
Fixpoint includes (s q : string) : bool :=
  prefix q s ||
  match s with
  | EmptyString => false
  | String _ r => includes r q
  end.

(** [s.replace(/c/g, rep)] for a one-character pattern: every occurrence of
    [c], left to right, is replaced by [rep]. *)
Fixpoint replace_all (c : ascii) (rep : string) (s : string) : string :=
  match s with
  | EmptyString => EmptyString
  | String a r =>
      (if Ascii.eqb a c then rep else str1 a) ++ replace_all c rep r
  end.

(** [Array.prototype.join] on an array of strings. *)
Definition join (sep : string) (l : list string) : string := String.concat sep l.

(** [s.split(c)] for a one-character separator: the pieces between the
    separators, never an empty array. *)
Fixpoint split (c : ascii) (s : string) : list string :=
  match s with
  | EmptyString => [EmptyString]
  | String a r =>
      if Ascii.eqb a c then EmptyString :: split c r
      else match split c r with
           | h :: t => String a h :: t
           | [] => [str1 a]
           end
  end.

(** [arr.pop()] of a fresh array, as a value: its last element. *)
Definition pop (l : list string) : string := last l EmptyString.

(** [s.slice(n)] for [n >= 0]. *)
Fixpoint slice (n : nat) (s : string) : string :=
  match n, s with
  | O, _ => s
  | S _, EmptyString => EmptyString
  | S m, String _ r => slice m r
  end.

(** The decimal rendering of an integer, as in a template literal. *)
Definition of_Z (z : Z) : string := NilZero.string_of_int (Z.to_int z).

End JsString.
Import JsString.

(* ================================================================== *)
(** ** JavaScript values *)

(** The largest magnitude up to which every integer is a double. *)
Definition safe_bound : Z := 2 ^ 53.

Definition is_safe (z : Z) : bool := Z.abs z <=? safe_bound.

Inductive number : Type :=
| NaN
| Int (z : Z)
| Other (repr : string).

(** The primitive values the component's state and the table's rows hold. *)
Inductive value : Type :=
| VUndef
| VNull
| VNum (n : number)
| VStr (s : string).

(** What the engine does outside the exact fragment. *)
Class Engine : Type := {
  (** the double a well-formed numeric literal rounds to, when the literal is
      not a plain decimal integer of safe magnitude *)
  eval_literal : string -> number;
  (** the sum of two numbers, neither of them NaN, when it is not the sum of
      two safe integers that is safe itself *)
  float_add : number -> number -> number
}.

Definition number_truthy (n : number) : bool :=
  match n with
  | NaN => false
  | Int z => negb (z =? 0)
  | Other _ => true
  end.

(** ToBoolean. *)
Definition truthy (v : value) : bool :=
  match v with
  | VUndef | VNull => false
  | VNum n => number_truthy n
  | VStr s => negb (is_empty s)
  end.

(** [a || b]. *)
Definition js_or (a b : value) : value := if truthy a then a else b.

(** [a ?? b]. *)
Definition js_nullish (a b : value) : value :=
  match a with
  | VUndef | VNull => b
  | _ => a
  end.

(** [n || m] on numbers. *)
Definition num_or (n m : number) : number := if number_truthy n then n else m.

(** [s || t] on strings. *)
Definition str_or (s t : string) : string := if is_empty s then t else s.

(** Number::toString. *)
Definition number_toString (n : number) : string :=
  match n with
  | NaN => "NaN"
  | Int z => of_Z z
  | Other repr => repr
  end.

(** [v.toString()]; [None] is the TypeError on undefined and null. *)
Definition toString (v : value) : option string :=
  match v with
  | VUndef | VNull => None
  | VNum n => Some (number_toString n)
  | VStr s => Some s
  end.

(** *** StringToNumber *)

Module Literal.

Definition is_digit (c : ascii) : bool :=
  let n := code c in ((48 <=? n) && (n <=? 57))%nat.

Definition is_hex_digit (c : ascii) : bool :=
  let n := code c in
  (is_digit c || (65 <=? n) && (n <=? 70) || (97 <=? n) && (n <=? 102))%nat.

Definition is_octal_digit (c : ascii) : bool :=
  let n := code c in ((48 <=? n) && (n <=? 55))%nat.

Definition is_binary_digit (c : ascii) : bool :=
  let n := code c in ((48 <=? n) && (n <=? 49))%nat.

Fixpoint all_chars (p : ascii -> bool) (s : string) : bool :=
  match s with
  | EmptyString => true
  | String c r => p c && all_chars p r
  end.

(** One or more characters, all of the class [p]. *)
Definition some_chars (p : ascii -> bool) (s : string) : bool :=
  negb (is_empty s) && all_chars p s.

(** The longest prefix of digits, and what follows it. *)
Fixpoint span_digits (s : string) : string * string :=
  match s with
  | EmptyString => (EmptyString, EmptyString)
  | String c r =>
      if is_digit c
      then let (d, rest) := span_digits r in (String c d, rest)
      else (EmptyString, s)
  end.

Definition strip_sign (s : string) : string :=
  match s with
  | String "+" r | String "-" r => r
  | _ => s
  end.

(** ExponentPart, or nothing. *)
Definition is_exponent_opt (s : string) : bool :=
  match s with
  | EmptyString => true
  | String ("e" | "E") r => some_chars is_digit (strip_sign r)
  | _ => false
  end.

(** StrUnsignedDecimalLiteral. *)
Definition is_unsigned_decimal (s : string) : bool :=
  if String.eqb s "Infinity" then true
  else
    let (d, rest) := span_digits s in
    match rest with
    | String "." r =>
        let (f, e) := span_digits r in
        negb (is_empty d && is_empty f) && is_exponent_opt e
    | _ => negb (is_empty d) && is_exponent_opt rest
    end.

(** NonDecimalIntegerLiteral: no sign, a radix prefix, one digit or more. *)
Definition is_non_decimal (s : string) : bool :=
  match s with
  | String "0" (String ("x" | "X") r) => some_chars is_hex_digit r
  | String "0" (String ("o" | "O") r) => some_chars is_octal_digit r
  | String "0" (String ("b" | "B") r) => some_chars is_binary_digit r
  | _ => false
  end.

(** StrNumericLiteral. *)
Definition is_numeric (s : string) : bool :=
  is_unsigned_decimal (strip_sign s) || is_non_decimal s.

Definition digit_value (c : ascii) : Z := Z.of_nat (code c) - 48.

Fixpoint digits_value (acc : Z) (s : string) : Z :=
  match s with
  | EmptyString => acc
  | String c r => digits_value (10 * acc + digit_value c) r
  end.

(** The value of an optional sign followed by one digit or more. *)
Definition signed_integer (s : string) : option Z :=
  if some_chars is_digit (strip_sign s)
  then
    let m := digits_value 0 (strip_sign s) in
    Some (match s with String "-" _ => - m | _ => m end)
  else None.

End Literal.

Section Engine.
Context {E : Engine}.

(** StringToNumber: blank is zero, a plain decimal integer of safe magnitude
    is itself, any other well-formed literal is what the engine rounds it to,
    and everything else is NaN. *)
Definition StringToNumber (s : string) : number :=
  let t := trim s in
  if is_empty t then Int 0
  else
    match Literal.signed_integer t with
    | Some z => if is_safe z then Int z else eval_literal t
    | None => if Literal.is_numeric t then eval_literal t else NaN
    end.

(** [Number(v)]. *)
Definition Number_ (v : value) : number :=
  match v with
  | VUndef => NaN
  | VNull => Int 0
  | VNum n => n
  | VStr s => StringToNumber s
  end.

(** [a + b] on numbers. *)
Definition num_add (a b : number) : number :=
  match a, b with
  | NaN, _ | _, NaN => NaN
  | Int x, Int y => if is_safe (x + y) then Int (x + y) else float_add a b
  | _, _ => float_add a b
  end.

End Engine.

(* ================================================================== *)
(** ** Records *)

(** A row of the table [tires], as [select("*")] returns it. *)
Record tire : Type := mkTire {
  id : string;
  sku : value;
  brand : value;
  model : value;
  size : value;
  ply : value;
  price : value;
  condition : value;
  quantity : value;
  notes : value;
  image_path : value;
  created_at : Z;
  updated_at : Z
}.

(** A [File] chosen in the form: only its name is read. *)
Record file : Type := mkFile { name : string }.

(** The draft the form edits; [image_file] is [None] for null and for an
    empty selection. *)
Record form_state : Type := mkForm {
  f_sku : value;
  f_brand : value;
  f_model : value;
  f_size : value;
  f_ply : value;
  f_price : value;
  f_condition : value;
  f_quantity : value;
  f_notes : value;
  image_file : option file
}.

(** The object [handleSave] sends to [insert] or [update]. *)
Record payload : Type := mkPayload {
  p_sku : value;
  p_brand : value;
  p_model : value;
  p_size : value;
  p_ply : value;
  p_price : value;
  p_condition : value;
  p_quantity : value;
  p_notes : value;
  p_image_path : value;
  p_updated_at : Z
}.

(** The component's state: one field per [useState]. *)
Record state : Type := mkState {
  tires : list tire;
  loading : bool;
  filter : string;
  formOpen : bool;
  editing : option tire;
  form : form_state
}.

(** The form as [useState] first holds it and as [resetForm] sets it again. *)
Definition empty_form : form_state :=
  {| f_sku := VStr ""; f_brand := VStr ""; f_model := VStr "";
     f_size := VStr ""; f_ply := VStr ""; f_price := VStr "";
     f_condition := VStr "New"; f_quantity := VNum (Int 1);
     f_notes := VStr ""; image_file := None |}.

Definition initial_state : state :=
  {| tires := []; loading := false; filter := ""; formOpen := false;
     editing := None; form := empty_form |}.

(* ================================================================== *)
(** ** The backend behind the Supabase client *)

Inductive request : Type :=
| Select
| Upload (fileName : string) (f : file)
| Insert (p : payload)
| Update (p : payload) (row : string)
| Delete (row : string).

Inductive toast : Type :=
| ToastError (msg : string)
| ToastSuccess (msg : string).

Record backend : Type := mkBackend {
  table : list tire;
  bucket : list (string * file)
}.

(** What a run of a handler takes from outside. *)
Record env : Type := mkEnv {
  (** [Date.now()] when the upload is named *)
  now : Z;
  (** [Math.random().toString(36)] *)
  random36 : string;
  (** [new Date()] when the payload is built *)
  stamp : Z;
  (** the answer to [confirm] *)
  confirmed : bool;
  (** the error message of a request that fails *)
  fault : request -> option string;
  (** the identifier and the [now()] the table gives an inserted row *)
  fresh_id : string;
  server_now : Z
}.

Module Store.

Fixpoint insert_desc (t : tire) (l : list tire) : list tire :=
  match l with
  | [] => [t]
  | u :: r => if created_at u <=? created_at t then t :: l else u :: insert_desc t r
  end.

(** [select("*").order("created_at", { ascending: false })]: the rows, newest
    first; among rows created at the same instant the order is the table's
    to choose, here the order they are stored in. *)
Definition select_all (rows : list tire) : list tire :=
  fold_right insert_desc [] rows.

(** The row an [insert] adds: the payload's columns, an identifier and a
    creation time from the table's defaults.  A cell holds the value sent. *)
Definition new_row (e : env) (p : payload) : tire :=
  {| id := fresh_id e; sku := p_sku p; brand := p_brand p; model := p_model p;
     size := p_size p; ply := p_ply p; price := p_price p;
     condition := p_condition p; quantity := p_quantity p; notes := p_notes p;
     image_path := p_image_path p; created_at := server_now e;
     updated_at := p_updated_at p |}.

(** The row an [update] leaves: the payload's columns overwritten, the
    identifier and the creation time kept. *)
Definition overwrite (p : payload) (t : tire) : tire :=
  {| id := id t; sku := p_sku p; brand := p_brand p; model := p_model p;
     size := p_size p; ply := p_ply p; price := p_price p;
     condition := p_condition p; quantity := p_quantity p; notes := p_notes p;
     image_path := p_image_path p; created_at := created_at t;
     updated_at := p_updated_at p |}.

Definition update_rows (p : payload) (row : string) (rows : list tire) : list tire :=
  map (fun t => if String.eqb (id t) row then overwrite p t else t) rows.

Definition delete_rows (row : string) (rows : list tire) : list tire :=
  List.filter (fun t => negb (String.eqb (id t) row)) rows.

Definition has_blob (fileName : string) (b : backend) : bool :=
  existsb (fun kv => String.eqb (fst kv) fileName) (bucket b).

(** The error of a request, if it fails: the one the environment injects, or,
    for an upload with [upsert: false], the name being taken. *)
Definition failure (e : env) (r : request) (b : backend) : option string :=
  match fault e r with
  | Some msg => Some msg
  | None =>
      match r with
      | Upload fileName _ =>
          if has_blob fileName b then Some "The resource already exists" else None
      | _ => None
      end
  end.

(** The backend after a request that succeeds. *)
Definition apply (e : env) (r : request) (b : backend) : backend :=
  match r with
  | Select => b
  | Upload fileName f => {| table := table b; bucket := bucket b ++ [(fileName, f)] |}
  | Insert p => {| table := table b ++ [new_row e p]; bucket := bucket b |}
  | Update p row => {| table := update_rows p row (table b); bucket := bucket b |}
  | Delete row => {| table := delete_rows row (table b); bucket := bucket b |}
  end.

End Store.

(* ================================================================== *)
(** ** Handlers as functions on a world *)

Record world : Type := mkWorld {
  ui : state;
  db : backend;
  (** the requests sent, oldest first *)
  sent : list request;
  (** the toasts shown, oldest first *)
  toasts : list toast
}.

(** The outcome of a block that may throw. *)
Inductive outcome (A : Type) : Type :=
| Ok (a : A)
| Throw (msg : string).
Arguments Ok {A} a.
Arguments Throw {A} msg.

Definition M (A : Type) : Type := world -> outcome A * world.

Definition ret {A} (a : A) : M A := fun w => (Ok a, w).

Definition bind {A B} (m : M A) (k : A -> M B) : M B :=
  fun w =>
    match m w with
    | (Ok a, w') => k a w'
    | (Throw msg, w') => (Throw msg, w')
    end.

Definition throw {A} (msg : string) : M A := fun w => (Throw msg, w).

(** [try { body } catch (err) { handler(err.message) } finally { last }]. *)
Definition try_catch_finally (body : M unit) (handler : string -> M unit)
    (last : M unit) : M unit :=
  fun w =>
    match body w with
    | (Ok tt, w') => last w'
    | (Throw msg, w') => bind (handler msg) (fun _ => last) w'
    end.

Declare Scope js_scope.
Delimit Scope js_scope with js.
Notation "x <- m ;; k" := (bind m (fun x => k))
  (at level 61, m at next level, right associativity) : js_scope.
Notation "m ;; k" := (bind m (fun _ => k))
  (at level 61, right associativity) : js_scope.
Open Scope js_scope.

Definition get_state : M state := fun w => (Ok (ui w), w).

Definition modify_state (f : state -> state) : M unit :=
  fun w => (Ok tt, {| ui := f (ui w); db := db w; sent := sent w; toasts := toasts w |}).

(** The state with one field replaced. *)
Definition with_tires (l : list tire) (s : state) : state :=
  {| tires := l; loading := loading s; filter := filter s;
     formOpen := formOpen s; editing := editing s; form := form s |}.

Definition with_loading (b : bool) (s : state) : state :=
  {| tires := tires s; loading := b; filter := filter s;
     formOpen := formOpen s; editing := editing s; form := form s |}.

Definition with_filter (q : string) (s : state) : state :=
  {| tires := tires s; loading := loading s; filter := q;
     formOpen := formOpen s; editing := editing s; form := form s |}.

Definition with_formOpen (b : bool) (s : state) : state :=
  {| tires := tires s; loading := loading s; filter := filter s;
     formOpen := b; editing := editing s; form := form s |}.

Definition with_editing (t : option tire) (s : state) : state :=
  {| tires := tires s; loading := loading s; filter := filter s;
     formOpen := formOpen s; editing := t; form := form s |}.

Definition with_form (f : form_state) (s : state) : state :=
  {| tires := tires s; loading := loading s; filter := filter s;
     formOpen := formOpen s; editing := editing s; form := f |}.

(** The setters of [useState]. *)
Definition setTires (l : list tire) : M unit := modify_state (with_tires l).
Definition setLoading (b : bool) : M unit := modify_state (with_loading b).
Definition setFilter (q : string) : M unit := modify_state (with_filter q).
Definition setFormOpen (b : bool) : M unit := modify_state (with_formOpen b).
Definition setEditing (t : option tire) : M unit := modify_state (with_editing t).
Definition setForm (f : form_state) : M unit := modify_state (with_form f).

Definition show (t : toast) : M unit :=
  fun w => (Ok tt, {| ui := ui w; db := db w; sent := sent w; toasts := toasts w ++ [t] |}).

(** One awaited request: it is recorded, it changes the backend when it
    succeeds, and the caller gets its error, if any. *)
Definition send (e : env) (r : request) : M (option string) :=
  fun w =>
    match Store.failure e r (db w) with
    | Some msg =>
        (Ok (Some msg),
         {| ui := ui w; db := db w; sent := sent w ++ [r]; toasts := toasts w |})
    | None =>
        (Ok None,
         {| ui := ui w; db := Store.apply e r (db w); sent := sent w ++ [r];
            toasts := toasts w |})
    end.

(** The [{ data, error }] of the select: the rows, newest first, or a message. *)
Definition send_select (e : env) : M (list tire + string) :=
  err <- send e Select ;;
  match err with
  | Some msg => ret (inr msg)
  | None => fun w => (Ok (inl (Store.select_all (table (db w)))), w)
  end.

(** Lines 66-78.  On success [data] is an array, so [data || []] is [data]. *)
Definition fetchTires (e : env) : M unit :=
  setLoading true ;;
  r <- send_select e ;;
  match r with
  | inr msg => show (ToastError ("Failed to load tires: " ++ msg))
  | inl data => setTires data
  end ;;
  setLoading false.

(** Lines 80-94. *)
Definition resetForm : M unit :=
  setEditing None ;;
  setForm empty_form.

(** The name an upload is stored under (lines 103-104). *)
Definition fileExt (f : file) : string := pop (split "." (name f)).

Definition fileName (e : env) (f : file) : string :=
  of_Z (now e) ++ "-" ++ slice 2 (random36 e) ++ "." ++ fileExt f.

(** The world a handler leaves. *)
Definition run (m : M unit) (w : world) : world := snd (m w).

Section Handlers.
Context {E : Engine}.

(** Lines 112-124. *)
Definition make_payload (e : env) (f : form_state) (image : value) : payload :=
  {| p_sku := f_sku f;
     p_brand := f_brand f;
     p_model := f_model f;
     p_size := f_size f;
     p_ply := f_ply f;
     p_price := js_or (f_price f) (VNum (Int 0));
     p_condition := f_condition f;
     p_quantity := VNum (num_or (Number_ (f_quantity f)) (Int 0));
     p_notes := f_notes f;
     p_image_path := image;
     p_updated_at := stamp e |}.

(** Lines 100-110: the image reference of the payload, after the upload of a
    pending file. *)
Definition save_image (e : env) (s : state) : M value :=
  let image := match editing s with Some t => image_path t | None => VNull end in
  match image_file (form s) with
  | Some f =>
      upErr <- send e (Upload (fileName e f) f) ;;
      match upErr with
      | Some msg => throw msg
      | None => ret (VStr (fileName e f))
      end
  | None => ret image
  end.

(** Lines 126-134. *)
Definition save_row (e : env) (s : state) (p : payload) : M unit :=
  match editing s with
  | Some t =>
      error <- send e (Update p (id t)) ;;
      match error with
      | Some msg => throw msg
      | None => show (ToastSuccess "Tire updated")
      end
  | None =>
      error <- send e (Insert p) ;;
      match error with
      | Some msg => throw msg
      | None => show (ToastSuccess "Tire added")
      end
  end.

(** Lines 96-143.  [fetchTires()] is not awaited there: its state writes land
    after the [finally], which ends in the same state as running it in
    place. *)
Definition handleSave (e : env) : M unit :=
  setLoading true ;;
  try_catch_finally
    (s <- get_state ;;
     image <- save_image e s ;;
     save_row e s (make_payload e (form s) image) ;;
     resetForm ;;
     setFormOpen false ;;
     fetchTires e)
    (fun msg => show (ToastError (str_or msg "Save failed")))
    (setLoading false).

(** Lines 145-160. *)
Definition handleEdit (t : tire) : M unit :=
  setEditing (Some t) ;;
  setForm
    {| f_sku := js_or (sku t) (VStr "");
       f_brand := js_or (brand t) (VStr "");
       f_model := js_or (model t) (VStr "");
       f_size := js_or (size t) (VStr "");
       f_ply := js_or (ply t) (VStr "");
       f_price := js_or (price t) (VStr "");
       f_condition := js_or (condition t) (VStr "New");
       f_quantity := js_or (quantity t) (VNum (Int 1));
       f_notes := js_or (notes t) (VStr "");
       image_file := None |} ;;
  setFormOpen true.

(** Lines 162-172; the refresh is not awaited, as in [handleSave]. *)
Definition handleDelete (e : env) (row : string) : M unit :=
  if negb (confirmed e) then ret tt
  else
    setLoading true ;;
    error <- send e (Delete row) ;;
    match error with
    | Some msg => show (ToastError ("Delete failed: " ++ msg))
    | None => show (ToastSuccess "Deleted") ;; fetchTires e
    end ;;
    setLoading false.

(** The "+ Add Tire" button (line 236). *)
Definition openCreate : M unit :=
  setFormOpen true ;;
  resetForm.

(** Lines 187-189. *)
Definition inventoryCount (s : state) : number :=
  fold_left (fun acc t => num_add acc (num_or (Number_ (quantity t)) (Int 0)))
            (tires s) (Int 0).

End Handlers.

(** Line 228: [tires.length]. *)
Definition skuCount (s : state) : nat := List.length (tires s).

(* ================================================================== *)
(** ** Search and export *)

(** [(v || "").toLowerCase().includes(q)]; [None] is the TypeError of a
    truthy value that is not a string. *)
Definition field_matches (v : value) (q : string) : option bool :=
  match js_or v (VStr "") with
  | VStr s => Some (includes (toLowerCase s) q)
  | _ => None
  end.

(** [a || b] on booleans, the right operand evaluated only when needed. *)
Definition or_lazy (a b : option bool) : option bool :=
  match a with
  | Some true => Some true
  | Some false => b
  | None => None
  end.

(** The callback of lines 177-184. *)
Definition matches (q : string) (t : tire) : option bool :=
  or_lazy (field_matches (brand t) q)
    (or_lazy (field_matches (model t) q)
       (or_lazy (field_matches (size t) q)
          (field_matches (sku t) q))).

(** [Array.prototype.filter] with a callback that may throw. *)
Fixpoint filter_array {A} (f : A -> option bool) (l : list A) : option (list A) :=
  match l with
  | [] => Some []
  | x :: r =>
      match f x with
      | None => None
      | Some b =>
          match filter_array f r with
          | None => None
          | Some r' => Some (if b then x :: r' else r')
          end
      end
  end.

(** Lines 174-185. *)
Definition filteredTires (s : state) : option (list tire) :=
  let q := toLowerCase (trim (filter s)) in
  if is_empty q then Some (tires s)
  else filter_array (matches q) (tires s).

(** [Array.prototype.map] with a callback that may throw. *)
Fixpoint map_array {A B} (f : A -> option B) (l : list A) : option (list B) :=
  match l with
  | [] => Some []
  | x :: r =>
      match f x with
      | None => None
      | Some y =>
          match map_array f r with
          | None => None
          | Some r' => Some (y :: r')
          end
      end
  end.

Definition newline : string := str1 "010"%char.

(** The template of line 207: the cell between quotes, its quotes doubled. *)
Definition csv_cell (c : value) : option string :=
  match toString (js_nullish c (VStr "")) with
  | Some s => Some (str1 dq ++ replace_all dq (str1 dq ++ str1 dq) s ++ str1 dq)
  | None => None
  end.

Definition csv_line (r : list value) : option string :=
  match map_array csv_cell r with
  | Some cells => Some (join "," cells)
  | None => None
  end.

Definition csv_header : list value :=
  [VStr "sku"; VStr "brand"; VStr "model"; VStr "size"; VStr "ply";
   VStr "price"; VStr "condition"; VStr "quantity"; VStr "notes";
   VStr "image_path"].

Definition csv_record (t : tire) : list value :=
  [sku t; brand t; model t; size t; ply t; price t; condition t; quantity t;
   notes t; image_path t].

(** Lines 192-207: the text [downloadCSV] puts in the blob. *)
Definition downloadCSV (s : state) : option string :=
  let rows := csv_header :: map csv_record (tires s) in
  match map_array csv_line rows with
  | Some lines => Some (join newline lines)
  | None => None
  end.

(* ================================================================== *)
(** ** The specification's side *)

Module Spec.

(** A field as text: null and undefined are the empty string, a string is
    itself, a number is its rendering. *)
Definition stringify (v : value) : string :=
  match v with
  | VUndef | VNull => ""
  | VNum n => number_toString n
  | VStr s => s
  end.

(** Every double quote written twice. *)
Fixpoint double_quotes (s : string) : string :=
  match s with
  | EmptyString => EmptyString
  | String c r =>
      if Ascii.eqb c dq then String dq (String dq (double_quotes r))
      else String c (double_quotes r)
  end.

Definition wrap (s : string) : string := String dq (s ++ str1 dq).

Definition quoted (v : value) : string := wrap (double_quotes (stringify v)).

Definition header_line : string :=
  wrap "sku" ++ "," ++ wrap "brand" ++ "," ++ wrap "model" ++ "," ++
  wrap "size" ++ "," ++ wrap "ply" ++ "," ++ wrap "price" ++ "," ++
  wrap "condition" ++ "," ++ wrap "quantity" ++ "," ++ wrap "notes" ++ "," ++
  wrap "image_path".

Definition record_line (t : tire) : string :=
  quoted (sku t) ++ "," ++ quoted (brand t) ++ "," ++ quoted (model t) ++ "," ++
  quoted (size t) ++ "," ++ quoted (ply t) ++ "," ++ quoted (price t) ++ "," ++
  quoted (condition t) ++ "," ++ quoted (quantity t) ++ "," ++
  quoted (notes t) ++ "," ++ quoted (image_path t).

(** The header row, then one row per record, in the order of the list, the
    rows separated by line breaks. *)
Fixpoint rows (l : list tire) : string :=
  match l with
  | [] => EmptyString
  | t :: r => newline ++ record_line t ++ rows r
  end.

Definition csv (l : list tire) : string := header_line ++ rows l.

(** [q] occurs in [s]. *)
Definition substring_of (q s : string) : Prop :=
  exists a b, s = a ++ q ++ b.

(** [q] occurs in [s], letter case apart. *)
Definition substring_ci (q s : string) : Prop :=
  substring_of (toLowerCase q) (toLowerCase s).

(** The text a search reads in a field: the field itself, or nothing when it
    is absent. *)
Definition text (v : value) : string :=
  match js_or v (VStr "") with
  | VStr s => s
  | _ => ""
  end.

(** A record is found by [q] when one of brand, model, size and sku has it. *)
Definition found (q : string) (t : tire) : Prop :=
  substring_ci q (text (brand t)) \/ substring_ci q (text (model t)) \/
  substring_ci q (text (size t)) \/ substring_ci q (text (sku t)).

(** The same, decided. *)
Definition has (q : string) (v : value) : bool :=
  includes (toLowerCase (text v)) (toLowerCase q).

Definition foundb (q : string) (t : tire) : bool :=
  has q (brand t) || has q (model t) || has q (size t) || has q (sku t).

(** [l1] is [l2] with some elements left out. *)
Inductive subsequence {A : Type} : list A -> list A -> Prop :=
| sub_nil : subsequence [] []
| sub_skip x l1 l2 : subsequence l1 l2 -> subsequence l1 (x :: l2)
| sub_keep x l1 l2 : subsequence l1 l2 -> subsequence (x :: l1) (x :: l2).

(** The quantity a record counts for: its number, zero when it is absent. *)
Definition count_of (t : tire) : Z :=
  match quantity t with
  | VNum (Int z) => z
  | _ => 0
  end.

Definition total (l : list tire) : Z :=
  fold_right (fun t acc => count_of t + acc) 0 l.

Definition magnitude (l : list tire) : Z :=
  fold_right (fun t acc => Z.abs (count_of t) + acc) 0 l.

End Spec.

(** The brand, model, size and sku of a record are text columns: strings, or
    absent. *)
Definition is_text (v : value) : bool :=
  match js_or v (VStr "") with
  | VStr _ => true
  | _ => false
  end.

Definition searchable (t : tire) : bool :=
  is_text (brand t) && is_text (model t) && is_text (size t) && is_text (sku t).

(** The quantity of a record is an integer column: a safe integer, or
    absent. *)
Definition integral (t : tire) : bool :=
  match quantity t with
  | VUndef | VNull | VNum NaN | VNum (Int _) => true
  | _ => false
  end.

(** *** What a submit sends, and what it leaves *)

Module Submit.
Section Submit.
Context {E : Engine}.

(** The image reference of the payload: the name of the pending file's
    upload, or else the reference of the record under edit, or else null. *)
Definition image_reference (e : env) (s : state) : value :=
  match image_file (form s) with
  | Some f => VStr (fileName e f)
  | None =>
      match editing s with
      | Some t => image_path t
      | None => VNull
      end
  end.

Definition saved_payload (e : env) (s : state) : payload :=
  make_payload e (form s) (image_reference e s).

(** An update of the record under edit, or an insert. *)
Definition write_request (e : env) (s : state) : request :=
  match editing s with
  | Some t => Update (saved_payload e s) (id t)
  | None => Insert (saved_payload e s)
  end.

Definition upload_request (e : env) (s : state) : list request :=
  match image_file (form s) with
  | Some f => [Upload (fileName e f) f]
  | None => []
  end.

(** The error of the upload, when there is a pending file and it fails. *)
Definition upload_failure (e : env) (w : world) : option string :=
  match image_file (form (ui w)) with
  | Some f => Store.failure e (Upload (fileName e f) f) (db w)
  | None => None
  end.

(** The backend once the pending file, if any, is stored. *)
Definition uploaded (e : env) (w : world) : backend :=
  match image_file (form (ui w)) with
  | Some f => Store.apply e (Upload (fileName e f) f) (db w)
  | None => db w
  end.

Definition success_toast (s : state) : toast :=
  match editing s with
  | Some _ => ToastSuccess "Tire updated"
  | None => ToastSuccess "Tire added"
  end.

End Submit.
End Submit.

(** The state at rest: no request in flight. *)
Definition idle (s : state) : state := with_loading false s.

(** The world a refresh leaves: the list replaced on success, a toast on
    failure, the state at rest either way. *)
Definition refreshed (e : env) (w : world) : world :=
  match fault e Select with
  | Some msg =>
      {| ui := idle (ui w); db := db w; sent := sent w ++ [Select];
         toasts := toasts w ++ [ToastError ("Failed to load tires: " ++ msg)] |}
  | None =>
      {| ui := idle (with_tires (Store.select_all (table (db w))) (ui w));
         db := db w; sent := sent w ++ [Select]; toasts := toasts w |}
  end.

(** A record with its update time replaced. *)
Definition touch (z : Z) (t : tire) : tire :=
  {| id := id t; sku := sku t; brand := brand t; model := model t;
     size := size t; ply := ply t; price := price t; condition := condition t;
     quantity := quantity t; notes := notes t; image_path := image_path t;
     created_at := created_at t; updated_at := z |}.

(** The values an edit hands back as they were: a string in a text column,
    a condition that is set, a price that is set or zero, a quantity that is
    a number other than zero. *)
Definition is_string (v : value) : bool :=
  match v with VStr _ => true | _ => false end.

Definition is_zero (v : value) : bool :=
  match v with VNum (Int 0) => true | _ => false end.

Definition is_count (v : value) : bool :=
  match v with VNum n => number_truthy n | _ => false end.

Definition populated (t : tire) : bool :=
  is_string (sku t) && is_string (brand t) && is_string (model t) &&
  is_string (size t) && is_string (ply t) && is_string (notes t) &&
  truthy (condition t) && (truthy (price t) || is_zero (price t)) &&
  is_count (quantity t).

(* ================================================================== *)
(** ** The form's controls, the cards and the user's actions *)

(** The inputs of the form (lines 281-293): the [onChange] of each replaces
    one field of the draft by the control's value, a string. *)
Inductive control : Type :=
| InSku | InBrand | InModel | InSize | InPly | InPrice | InCondition
| InQuantity | InNotes.

(** [{ ...form, field: v }]. *)
Definition set_control (c : control) (v : value) (f : form_state) : form_state :=
  {| f_sku := match c with InSku => v | _ => f_sku f end;
     f_brand := match c with InBrand => v | _ => f_brand f end;
     f_model := match c with InModel => v | _ => f_model f end;
     f_size := match c with InSize => v | _ => f_size f end;
     f_ply := match c with InPly => v | _ => f_ply f end;
     f_price := match c with InPrice => v | _ => f_price f end;
     f_condition := match c with InCondition => v | _ => f_condition f end;
     f_quantity := match c with InQuantity => v | _ => f_quantity f end;
     f_notes := match c with InNotes => v | _ => f_notes f end;
     image_file := image_file f |}.

Definition onChange (c : control) (text : string) : M unit :=
  s <- get_state ;;
  setForm (set_control c (VStr text) (form s)).

(** The file input (line 297): [e.target.files[0]], nothing when the
    selection is empty. *)
Definition onFile (f : option file) : M unit :=
  s <- get_state ;;
  setForm
    {| f_sku := f_sku (form s); f_brand := f_brand (form s);
       f_model := f_model (form s); f_size := f_size (form s);
       f_ply := f_ply (form s); f_price := f_price (form s);
       f_condition := f_condition (form s); f_quantity := f_quantity (form s);
       f_notes := f_notes (form s); image_file := f |}.

(** The Cancel button (line 301). *)
Definition cancel : M unit :=
  setFormOpen false ;;
  resetForm.

(** [`${v}`]. *)
Definition template (v : value) : string :=
  match v with
  | VUndef => "undefined"
  | VNull => "null"
  | VNum n => number_toString n
  | VStr s => s
  end.

(** Lines 249-253: the source of a card's image under the project URL
    [base], or nothing when the card reads "No image". *)
Definition image_src (base : string) (t : tire) : option string :=
  if truthy (image_path t)
  then Some (base ++ "/storage/v1/object/public/tire-images/"
                  ++ template (image_path t))
  else None.

(** Line 279: the title of the form. *)
Definition form_title (s : state) : string :=
  match editing s with
  | Some _ => "Edit Tire"
  | None => "Add Tire"
  end.

(** What the user can do.  The controls of the form are there only while the
    form is open (line 276). *)
Inductive action : Type :=
| Mount (e : env)
| Search (q : string)
| Add
| Edit (t : tire)
| Remove (e : env) (row : string)
| Enter (c : control) (text : string)
| Choose (f : option file)
| Cancel
| Submit (e : env).

Section Actions.
Context {E : Engine}.

Definition perform (a : action) : M unit :=
  match a with
  | Mount e => fetchTires e
  | Search q => setFilter q
  | Add => openCreate
  | Edit t => handleEdit t
  | Remove e row => handleDelete e row
  | Enter c text =>
      s <- get_state ;; if formOpen s then onChange c text else ret tt
  | Choose f =>
      s <- get_state ;; if formOpen s then onFile f else ret tt
  | Cancel =>
      s <- get_state ;; if formOpen s then cancel else ret tt
  | Submit e =>
      s <- get_state ;; if formOpen s then handleSave e else ret tt
  end.

(** The world after a sequence of actions, each run to its end. *)
Definition play (l : list action) (w : world) : world :=
  fold_left (fun w a => run (perform a) w) l w.

End Actions.

(** The world the component starts in, over a backend. *)
Definition boot (b : backend) : world :=
  {| ui := initial_state; db := b; sent := []; toasts := [] |}.

(* ================================================================== *)
(** ** What the number controls hand over *)

Module Html.







End Html.

(* ================================================================== *)
(** ** A reader of the exported text *)

Module Csv.

(** Where the reader is: before a field, inside its quotes, or just after a
    quote met inside them, which ends the field unless a second quote
    follows. *)
Inductive place : Type :=
| AtField
| InField (cell : string)
| AfterQuote (cell : string).

Definition comma : ascii := ","%char.
Definition lf : ascii := "010"%char.

(** Reads a text in which every field is quoted: the rows, each the list of
    its fields; [None] when the text is not of that form. *)
Fixpoint scan (p : place) (rows : list (list string)) (row : list string)
    (s : string) : option (list (list string)) :=
  match s with
  | EmptyString =>
      match p with
      | AfterQuote cell => Some (rows ++ [row ++ [cell]])%list
      | AtField => match row with [] => Some rows | _ => None end
      | InField _ => None
      end
  | String c r =>
      match p with
      | AtField =>
          if Ascii.eqb c dq then scan (InField "") rows row r else None
      | InField cell =>
          if Ascii.eqb c dq then scan (AfterQuote cell) rows row r
          else scan (InField (cell ++ str1 c)) rows row r
      | AfterQuote cell =>
          if Ascii.eqb c dq then scan (InField (cell ++ str1 dq)) rows row r
          else if Ascii.eqb c comma then scan AtField rows (row ++ [cell])%list r
          else if Ascii.eqb c lf
          then scan AtField (rows ++ [row ++ [cell]])%list [] r
          else None
      end
  end.

Definition read (s : string) : option (list (list string)) :=
  scan AtField [] [] s.

Definition header : list string :=
  ["sku"; "brand"; "model"; "size"; "ply"; "price"; "condition"; "quantity";
   "notes"; "image_path"].

(** The ten fields of a record as the export renders them. *)
Definition fields (t : tire) : list string :=
  map Spec.stringify (csv_record t).

(** A field and a row as the export writes them. *)
Definition quote_cell (x : string) : string := Spec.wrap (Spec.double_quotes x).

Definition quote_line (xs : list string) : string :=
  join "," (map quote_cell xs).

End Csv.

(* ================================================================== *)
(** ** States the component keeps to *)

Definition is_nullish (v : value) : bool :=
  match v with VUndef | VNull => true | _ => false end.



(** A record with one column replaced, the column a control of the form
    edits. *)
Definition set_column (c : control) (v : value) (t : tire) : tire :=
  {| id := id t;
     sku := match c with InSku => v | _ => sku t end;
     brand := match c with InBrand => v | _ => brand t end;
     model := match c with InModel => v | _ => model t end;
     size := match c with InSize => v | _ => size t end;
     ply := match c with InPly => v | _ => ply t end;
     price := match c with InPrice => v | _ => price t end;
     condition := match c with InCondition => v | _ => condition t end;
     quantity := match c with InQuantity => v | _ => quantity t end;
     notes := match c with InNotes => v | _ => notes t end;
     image_path := image_path t;
     created_at := created_at t;
     updated_at := updated_at t |}.

(** The rows of a table in the order a reload shows them. *)
Definition newest_first (a b : tire) : Prop := created_at b <= created_at a.

Section Written.
Context {E : Engine}.

(** What a save writes in the column of a control for a text entered in
    it (lines 112-124). *)
Definition written (c : control) (text : string) : value :=
  match c with
  | InQuantity => VNum (num_or (StringToNumber text) (Int 0))
  | InPrice => js_or (VStr text) (VNum (Int 0))
  | _ => VStr text
  end.

End Written.

(** The kinds of request. *)
Definition is_delete (r : request) : bool :=
  match r with Delete _ => true | _ => false end.

Definition is_write (r : request) : bool :=
  match r with Insert _ | Update _ _ => true | _ => false end.

Definition is_upload (r : request) : bool :=
  match r with Upload _ _ => true | _ => false end.

(** The rows of a table other than the one addressed. *)
Definition others (row : string) (rows : list tire) : list tire :=
  List.filter (fun t => negb (String.eqb (id t) row)) rows.

(* ================================================================== *)
(** ** Sample data *)

Module Sample.

(** An engine for closed examples; they stay inside the exact fragment,
    where the engine is not asked. *)
Definition engine : Engine :=
  {| eval_literal := fun _ => NaN; float_add := fun _ _ => NaN |}.

Definition said_ok : string := "He said " ++ str1 dq ++ "ok" ++ str1 dq.

Definition acme : tire :=
  {| id := "a1"; sku := VStr "T-100"; brand := VStr "Acme Tires";
     model := VStr "Grip"; size := VStr "225/45R17"; ply := VStr "";
     price := VNum (Int 0); condition := VStr "Used";
     quantity := VNum (Int 3); notes := VStr said_ok; image_path := VNull;
     created_at := 10; updated_at := 20 |}.

Definition zeta : tire :=
  {| id := "b2"; sku := VStr "T-200"; brand := VStr "Zeta";
     model := VStr "X"; size := VStr "205/55R16"; ply := VStr "4";
     price := VNum (Other "49.99"); condition := VStr "New";
     quantity := VNum (Int 5); notes := VStr "";
     image_path := VStr "1700000000000-4fzyo82mvyr.png";
     created_at := 30; updated_at := 30 |}.

(** A record that is out of stock and has no model. *)
Definition sold_out : tire :=
  {| id := "c3"; sku := VStr "T-300"; brand := VStr "Acme"; model := VNull;
     size := VStr "195/65R15"; ply := VStr "6"; price := VNum (Int 80);
     condition := VStr "New"; quantity := VNum (Int 0); notes := VStr "";
     image_path := VNull; created_at := 5; updated_at := 20 |}.

Definition photo : file := {| name := "photo.jpg" |}.

(** The empty form with a price and a quantity typed in, and with a file
    chosen. *)
Definition draft (p q : value) : form_state :=
  {| f_sku := VStr ""; f_brand := VStr ""; f_model := VStr "";
     f_size := VStr ""; f_ply := VStr ""; f_price := p;
     f_condition := VStr "New"; f_quantity := q; f_notes := VStr "";
     image_file := None |}.

Definition draft_with_photo : form_state :=
  {| f_sku := VStr "T-400"; f_brand := VStr "Acme"; f_model := VStr "";
     f_size := VStr ""; f_ply := VStr ""; f_price := VStr "49.99";
     f_condition := VStr "New"; f_quantity := VStr "4"; f_notes := VStr "";
     image_file := Some photo |}.

Definition stock (l : list tire) (q : string) : state :=
  {| tires := l; loading := false; filter := q; formOpen := false;
     editing := None; form := empty_form |}.

Definition world_of (l : list tire) : world :=
  {| ui := stock (Store.select_all l) ""; db := {| table := l; bucket := [] |};
     sent := []; toasts := [] |}.

(** The form open on a draft [f]. *)
Definition drafting (f : form_state) (w : world) : world :=
  {| ui := with_formOpen true (with_form f (ui w)); db := db w;
     sent := sent w; toasts := toasts w |}.

(** A run in which nothing fails and the user confirms. *)
Definition fair : env :=
  {| now := 1700000000000; random36 := "0.4fzyo82mvyr"; stamp := 1700000000005;
     confirmed := true; fault := fun _ => None; fresh_id := "n1";
     server_now := 1700000000009 |}.

(** The same, with the client clock at 20. *)
Definition late : env :=
  {| now := 20; random36 := "0.4fzyo82mvyr"; stamp := 20;
     confirmed := true; fault := fun _ => None; fresh_id := "n1";
     server_now := 1700000000009 |}.

(** A run in which the user declines. *)
Definition declined : env :=
  {| now := 1700000000000; random36 := "0.4fzyo82mvyr"; stamp := 1700000000005;
     confirmed := false; fault := fun _ => None; fresh_id := "n1";
     server_now := 1700000000009 |}.

(** A run in which every request fails. *)
Definition offline : env :=
  {| now := 1700000000000; random36 := "0.4fzyo82mvyr"; stamp := 1700000000005;
     confirmed := true; fault := fun _ => Some "Failed to fetch"; fresh_id := "n1";
     server_now := 1700000000009 |}.

End Sample.

(** *** More runs *)

Module Scene.

(** A run in which the table refuses every write, with no message, and
    everything else goes through. *)
Definition refused : env :=
  {| now := 1700000000000; random36 := "0.4fzyo82mvyr"; stamp := 1700000000005;
     confirmed := true;
     fault := fun r => if is_write r then Some "" else None;
     fresh_id := "n1"; server_now := 1700000000009 |}.

Definition shop : world := Sample.world_of [Sample.acme; Sample.zeta].

(** The form open on a new record with a photo. *)
Definition adding : world := Sample.drafting Sample.draft_with_photo shop.

(** The form open on a new record, no photo, quantity 4. *)
Definition adding_four : world :=
  Sample.drafting (Sample.draft (VStr "49.99") (VStr " 4 ")) shop.

End Scene.

(* ================================================================== *)
(** ** Strings: lemmas *)

Lemma append_nil_r (s : string) : s ++ "" = s.
Proof. induction s as [|c s IH]; simpl; [reflexivity | now rewrite IH]. Qed.

Lemma append_assoc (a b c : string) : (a ++ b) ++ c = a ++ (b ++ c).
Proof. induction a as [|x a IH]; simpl; [reflexivity | now rewrite IH]. Qed.

Lemma replace_all_double (s : string) :
  replace_all dq (str1 dq ++ str1 dq) s = Spec.double_quotes s.
Proof.
  induction s as [|c s IH]; [reflexivity|].
  cbn [replace_all Spec.double_quotes]. rewrite IH.
  destruct (Ascii.eqb c dq); reflexivity.
Qed.

Lemma csv_cell_quoted (v : value) : csv_cell v = Some (Spec.quoted v).
Proof.
  unfold csv_cell, Spec.quoted, Spec.wrap.
  destruct v as [| |n|s]; cbn [js_nullish toString Spec.stringify];
    rewrite replace_all_double; reflexivity.
Qed.

Lemma csv_line_record (t : tire) :
  csv_line (csv_record t) = Some (Spec.record_line t).
Proof.
  unfold csv_line, csv_record, map_array.
  rewrite !csv_cell_quoted. reflexivity.
Qed.

Lemma csv_line_header : csv_line csv_header = Some Spec.header_line.
Proof. reflexivity. Qed.

Lemma map_array_records (l : list tire) :
  map_array csv_line (map csv_record l) = Some (map Spec.record_line l).
Proof.
  induction l as [|t l IH]; simpl; [reflexivity|].
  rewrite csv_line_record, IH. reflexivity.
Qed.

Lemma join_rows (h : string) (l : list tire) :
  join newline (h :: map Spec.record_line l) = h ++ Spec.rows l.
Proof.
  revert h. induction l as [|t l IH]; intros h.
  - simpl. now rewrite append_nil_r.
  - change (join newline (h :: map Spec.record_line (t :: l)))
      with (h ++ newline ++ join newline (Spec.record_line t :: map Spec.record_line l)).
    rewrite IH. simpl. now rewrite append_assoc.
Qed.

Lemma prefix_nil (s : string) : prefix "" s = true.
Proof. destruct s; reflexivity. Qed.

Lemma prefix_app (q s : string) :
  prefix q s = true <-> exists b, s = q ++ b.
Proof.
  revert s. induction q as [|c q IH]; intros s.
  - rewrite prefix_nil. split; [intros _; now exists s | reflexivity].
  - destruct s as [|d s]; simpl.
    + split; [discriminate | intros [b H]; discriminate].
    + destruct (ascii_dec c d) as [->|ne].
      * rewrite IH. split; intros [b H]; exists b; [now rewrite H | now inversion H].
      * split; [discriminate | intros [b H]; inversion H; congruence].
Qed.

Lemma includes_occurs (s q : string) :
  includes s q = true <-> Spec.substring_of q s.
Proof.
  unfold Spec.substring_of. induction s as [|c s IH].
  - cbn [includes]. rewrite orb_false_r, prefix_app. split.
    + intros [b H]. now exists "", b.
    + intros [[|x a] [b H]]; [now exists b | discriminate].
  - cbn [includes]. rewrite orb_true_iff, prefix_app, IH. split.
    + intros [[b H] | [a [b H]]].
      * now exists "", b.
      * exists (String c a), b. now rewrite H.
    + intros [[|x a] [b H]].
      * left. now exists b.
      * right. exists a, b. now inversion H.
Qed.

Lemma includes_nil (s : string) : includes s "" = true.
Proof. destruct s; reflexivity. Qed.

Lemma is_empty_true (s : string) : is_empty s = true <-> s = "".
Proof. destruct s; simpl; split; congruence. Qed.

Lemma toLowerCase_empty (s : string) : is_empty (toLowerCase s) = is_empty s.
Proof. destruct s; reflexivity. Qed.

(** *** Trimming *)

Lemma trimStart_spaces (a s : string) :
  Literal.all_chars is_space a = true -> trimStart (a ++ s) = trimStart s.
Proof.
  induction a as [|c a IH]; simpl; [reflexivity|].
  intros H. apply andb_true_iff in H as [Hc Ha]. rewrite Hc. now apply IH.
Qed.

Lemma trimEnd_spaces (b : string) :
  Literal.all_chars is_space b = true -> trimEnd b = "".
Proof.
  induction b as [|c b IH]; simpl; [reflexivity|].
  intros H. apply andb_true_iff in H as [Hc Hb]. now rewrite Hc, (IH Hb).
Qed.

Lemma trimEnd_app_spaces (s b : string) :
  Literal.all_chars is_space b = true -> trimEnd (s ++ b) = trimEnd s.
Proof.
  intros Hb. induction s as [|c s IH]; simpl.
  - now apply trimEnd_spaces.
  - now rewrite IH.
Qed.

Lemma trimStart_app (q b : string) :
  trimStart (q ++ b) =
  if Literal.all_chars is_space q then trimStart b else trimStart q ++ b.
Proof.
  induction q as [|c q IH]; simpl; [reflexivity|].
  destruct (is_space c); simpl; [exact IH | reflexivity].
Qed.

Lemma trimStart_all_spaces (q : string) :
  Literal.all_chars is_space q = true -> trimStart q = "".
Proof.
  intros H. rewrite <- (append_nil_r q). now rewrite trimStart_spaces.
Qed.

Lemma trim_spaces (q : string) :
  Literal.all_chars is_space q = true -> trim q = "".
Proof. intros H. unfold trim. now rewrite trimStart_all_spaces. Qed.

(** Whitespace around a query does not survive [trim]. *)
Lemma trim_padded (a q b : string) :
  Literal.all_chars is_space a = true ->
  Literal.all_chars is_space b = true ->
  trim (a ++ q ++ b) = trim q.
Proof.
  intros Ha Hb. unfold trim.
  rewrite trimStart_spaces by assumption.
  rewrite trimStart_app.
  destruct (Literal.all_chars is_space q) eqn:Hq.
  - rewrite (trimStart_all_spaces b Hb), (trimStart_all_spaces q Hq). reflexivity.
  - now apply trimEnd_app_spaces.
Qed.

(* ================================================================== *)
(** ** Search: lemmas *)

Lemma has_occurs (q : string) (v : value) :
  Spec.has q v = true <-> Spec.substring_ci q (Spec.text v).
Proof. apply includes_occurs. Qed.

Lemma foundb_found (q : string) (t : tire) :
  Spec.foundb q t = true <-> Spec.found q t.
Proof.
  unfold Spec.foundb, Spec.found.
  rewrite !orb_true_iff, !has_occurs. tauto.
Qed.

Lemma field_matches_text (v : value) (q : string) :
  is_text v = true ->
  field_matches v (toLowerCase q) = Some (Spec.has q v).
Proof.
  unfold is_text, field_matches, Spec.has, Spec.text.
  destruct (js_or v (VStr "")); intros H; try discriminate. reflexivity.
Qed.

Lemma matches_foundb (q : string) (t : tire) :
  searchable t = true ->
  matches (toLowerCase q) t = Some (Spec.foundb q t).
Proof.
  unfold searchable, matches, Spec.foundb. intros H.
  apply andb_true_iff in H as [H Hsku].
  apply andb_true_iff in H as [H Hsize].
  apply andb_true_iff in H as [Hbrand Hmodel].
  rewrite !field_matches_text by assumption.
  destruct (Spec.has q (brand t)), (Spec.has q (model t)),
    (Spec.has q (size t)); reflexivity.
Qed.

Lemma filter_array_filter {A} (f : A -> option bool) (g : A -> bool) (l : list A) :
  Forall (fun x => f x = Some (g x)) l ->
  filter_array f l = Some (List.filter g l).
Proof.
  induction 1 as [|x l Hx _ IH]; simpl; [reflexivity|].
  rewrite Hx, IH. reflexivity.
Qed.

Lemma filter_all {A} (g : A -> bool) (l : list A) :
  (forall x, In x l -> g x = true) -> List.filter g l = l.
Proof.
  induction l as [|x l IH]; simpl; intros H; [reflexivity|].
  rewrite (H x) by now left. f_equal. apply IH. intros y Hy. apply H. now right.
Qed.

Lemma filter_twice {A} (g : A -> bool) (l : list A) :
  List.filter g (List.filter g l) = List.filter g l.
Proof.
  apply filter_all. intros x Hx. now apply filter_In in Hx.
Qed.

Lemma filter_subsequence {A} (g : A -> bool) (l : list A) :
  Spec.subsequence (List.filter g l) l.
Proof.
  induction l as [|x l IH]; simpl; [constructor|].
  destruct (g x); now constructor.
Qed.

Lemma foundb_nil (t : tire) : Spec.foundb "" t = true.
Proof. unfold Spec.foundb, Spec.has. simpl. now rewrite includes_nil. Qed.

(** The search on text columns: the records found by the trimmed query, in
    the order of the list. *)
Lemma filteredTires_searchable (s : state) :
  Forall (fun t => searchable t = true) (tires s) ->
  filteredTires s = Some (List.filter (Spec.foundb (trim (filter s))) (tires s)).
Proof.
  intros H. unfold filteredTires.
  destruct (is_empty (toLowerCase (trim (filter s)))) eqn:He.
  - rewrite toLowerCase_empty in He. apply is_empty_true in He. rewrite He.
    f_equal. symmetry. apply filter_all. intros t _. apply foundb_nil.
  - apply filter_array_filter.
    eapply Forall_impl; [|exact H]. intros t Ht. now apply matches_foundb.
Qed.

Lemma filteredTires_blank (s : state) :
  trim (filter s) = "" -> filteredTires s = Some (tires s).
Proof. intros H. unfold filteredTires. now rewrite H. Qed.

(* ================================================================== *)
(** ** Handlers: lemmas *)

(** Runs the monadic code as far as the data allows. *)
Ltac js_step :=
  cbv beta iota zeta delta
    [handleSave handleDelete handleEdit openCreate save_image save_row
     fetchTires send_select send resetForm refreshed idle
     try_catch_finally bind ret throw show run
     setTires setLoading setFilter setFormOpen setEditing setForm
     modify_state get_state
     with_tires with_loading with_filter with_formOpen with_editing with_form
     Submit.image_reference Submit.saved_payload Submit.write_request
     Submit.upload_request Submit.upload_failure Submit.uploaded
     Submit.success_toast
     fst snd ui db sent toasts tires loading filter formOpen editing form].

Ltac open_world w :=
  destruct w as [[w_tires w_loading w_filter w_formOpen w_editing w_form]
                   w_db w_sent w_toasts];
  cbn [ui db sent toasts tires loading filter formOpen editing form] in *.

Lemma fetchTires_refreshed (e : env) (w : world) :
  fetchTires e w = (Ok tt, refreshed e w).
Proof.
  open_world w. js_step. unfold Store.failure.
  destruct (fault e Select); js_step; reflexivity.
Qed.

Section HandlerLemmas.
Context {E : Engine}.

Lemma handleSave_upload_fails (e : env) (w : world) (msg : string) :
  Submit.upload_failure e w = Some msg ->
  handleSave e w =
  (Ok tt,
   {| ui := idle (ui w); db := db w;
      sent := sent w ++ Submit.upload_request e (ui w);
      toasts := toasts w ++ [ToastError (str_or msg "Save failed")] |}).
Proof.
  intros Hu. open_world w. revert Hu. js_step.
  destruct (image_file _) as [f|]; [|discriminate].
  intros Hu. js_step. rewrite Hu. reflexivity.
Qed.

Lemma handleSave_write_fails (e : env) (w : world) (msg : string) :
  Submit.upload_failure e w = None ->
  fault e (Submit.write_request e (ui w)) = Some msg ->
  handleSave e w =
  (Ok tt,
   {| ui := idle (ui w); db := Submit.uploaded e w;
      sent := sent w ++ Submit.upload_request e (ui w)
                     ++ [Submit.write_request e (ui w)];
      toasts := toasts w ++ [ToastError (str_or msg "Save failed")] |}).
Proof.
  intros Hu Hw. open_world w. revert Hu Hw. js_step.
  destruct (image_file _) as [f|]; intros Hu; js_step; try rewrite Hu; js_step;
    unfold Store.failure;
    (destruct w_editing as [t|]; intros Hw; rewrite Hw; js_step;
     rewrite <- ?app_assoc; reflexivity).
Qed.

Lemma handleSave_succeeds (e : env) (w : world) :
  Submit.upload_failure e w = None ->
  fault e (Submit.write_request e (ui w)) = None ->
  handleSave e w =
  (Ok tt,
   refreshed e
     {| ui := with_formOpen false (with_form empty_form (with_editing None (ui w)));
        db := Store.apply e (Submit.write_request e (ui w)) (Submit.uploaded e w);
        sent := sent w ++ Submit.upload_request e (ui w)
                       ++ [Submit.write_request e (ui w)];
        toasts := toasts w ++ [Submit.success_toast (ui w)] |}).
Proof.
  intros Hu Hw. open_world w. revert Hu Hw. js_step.
  destruct (image_file _) as [f|]; intros Hu; js_step; try rewrite Hu; js_step;
    unfold Store.failure;
    (destruct w_editing as [t|]; intros Hw; rewrite Hw; js_step;
     destruct (fault e Select); js_step; rewrite <- ?app_assoc; reflexivity).
Qed.

End HandlerLemmas.

Lemma handleDelete_declined (e : env) (row : string) (w : world) :
  confirmed e = false -> handleDelete e row w = (Ok tt, w).
Proof. intros H. unfold handleDelete. rewrite H. reflexivity. Qed.

Lemma handleDelete_fails (e : env) (row : string) (w : world) (msg : string) :
  confirmed e = true ->
  fault e (Delete row) = Some msg ->
  handleDelete e row w =
  (Ok tt,
   {| ui := idle (ui w); db := db w; sent := sent w ++ [Delete row];
      toasts := toasts w ++ [ToastError ("Delete failed: " ++ msg)] |}).
Proof.
  intros Hc Hd. open_world w. unfold handleDelete. rewrite Hc.
  js_step. unfold Store.failure. rewrite Hd. reflexivity.
Qed.

Lemma handleDelete_succeeds (e : env) (row : string) (w : world) :
  confirmed e = true ->
  fault e (Delete row) = None ->
  handleDelete e row w =
  (Ok tt,
   refreshed e
     {| ui := ui w;
        db := {| table := Store.delete_rows row (table (db w));
                 bucket := bucket (db w) |};
        sent := sent w ++ [Delete row];
        toasts := toasts w ++ [ToastSuccess "Deleted"] |}).
Proof.
  intros Hc Hd. open_world w. unfold handleDelete. rewrite Hc.
  js_step. unfold Store.failure. rewrite Hd. js_step.
  destruct (fault e Select); reflexivity.
Qed.

Lemma idle_at_rest (s : state) : loading s = false -> idle s = s.
Proof. destruct s; simpl; intros ->; reflexivity. Qed.

(* ================================================================== *)
(** ** The inventory total: lemmas *)

Lemma magnitude_nonneg (l : list tire) : 0 <= Spec.magnitude l.
Proof. induction l as [|t l IH]; simpl; lia. Qed.

Lemma counted_integral `{Engine} (t : tire) :
  integral t = true ->
  num_or (Number_ (quantity t)) (Int 0) = Int (Spec.count_of t).
Proof.
  unfold integral, Spec.count_of.
  destruct (quantity t) as [| |[|z|r]|s]; try discriminate; intros _;
    try reflexivity.
  unfold num_or, Number_, number_truthy.
  destruct (Z.eqb_spec z 0) as [->|ne]; reflexivity.
Qed.

Lemma count_from `{Engine} (l : list tire) (a : Z) :
  Forall (fun t => integral t = true) l ->
  Z.abs a + Spec.magnitude l <= safe_bound ->
  fold_left (fun acc t => num_add acc (num_or (Number_ (quantity t)) (Int 0)))
            l (Int a)
  = Int (a + Spec.total l).
Proof.
  intros Hl. revert a. induction Hl as [|t l Ht _ IH]; intros a Ha; simpl in *.
  - now rewrite Z.add_0_r.
  - rewrite (counted_integral t Ht). unfold num_add.
    pose proof (magnitude_nonneg l) as Hm.
    assert (Hs : is_safe (a + Spec.count_of t) = true)
      by (unfold is_safe; apply Z.leb_le; lia).
    rewrite Hs, IH by lia. f_equal. lia.
Qed.

(* ================================================================== *)
(** ** Export: the text as the specification words it *)

Lemma downloadCSV_csv (s : state) : downloadCSV s = Some (Spec.csv (tires s)).
Proof.
  unfold downloadCSV. cbn [map_array].
  rewrite csv_line_header, map_array_records. now rewrite join_rows.
Qed.

(* ================================================================== *)
(** ** Submit: lemmas *)

Lemma js_or_truthy (v d : value) : truthy v = true -> js_or v d = v.
Proof. unfold js_or. now intros ->. Qed.

Lemma js_or_falsy (v d : value) : truthy v = false -> js_or v d = d.
Proof. unfold js_or. now intros ->. Qed.

Lemma js_or_string (v : value) : is_string v = true -> js_or v (VStr "") = v.
Proof. destruct v as [| |n|[|c s]]; try discriminate; reflexivity. Qed.

Lemma price_round_trip (v : value) :
  truthy v || is_zero v = true ->
  js_or (js_or v (VStr "")) (VNum (Int 0)) = v.
Proof.
  destruct (truthy v) eqn:Hv; simpl.
  - intros _. now rewrite (js_or_truthy v _ Hv), (js_or_truthy v _ Hv).
  - destruct v as [| |[|z|r]|s]; try discriminate.
    destruct z; try discriminate. reflexivity.
Qed.

Lemma quantity_round_trip `{Engine} (v : value) :
  is_count v = true ->
  VNum (num_or (Number_ (js_or v (VNum (Int 1)))) (Int 0)) = v.
Proof.
  destruct v as [| |n|s]; try discriminate. cbn [is_count]. intros Hn.
  unfold js_or, num_or. cbn [truthy]. rewrite Hn. cbn [Number_]. now rewrite Hn.
Qed.





Lemma split_single (c : ascii) (s : string) :
  Literal.all_chars (fun a => negb (Ascii.eqb a c)) s = true ->
  split c s = [s].
Proof.
  induction s as [|a s IH]; simpl; [reflexivity|].
  intros H. apply andb_true_iff in H as [Ha Hs].
  apply negb_true_iff in Ha. now rewrite Ha, (IH Hs).
Qed.

Lemma split_last (c : ascii) (base ext : string) :
  Literal.all_chars (fun a => negb (Ascii.eqb a c)) ext = true ->
  exists first rest, split c (base ++ String c ext) = ((first :: rest) ++ [ext])%list.
Proof.
  intros Hext. induction base as [|a base (first & rest & IH)]; simpl.
  - rewrite Ascii.eqb_refl, (split_single c ext Hext). now exists "", [].
  - rewrite IH. destruct (Ascii.eqb a c).
    + now exists "", (first :: rest).
    + now exists (String a first), rest.
Qed.

(** The extension is what follows the last dot of the name. *)
Lemma fileExt_after_last_dot (f : file) (base ext : string) :
  name f = base ++ "." ++ ext ->
  Literal.all_chars (fun a => negb (Ascii.eqb a ".")) ext = true ->
  fileExt f = ext.
Proof.
  intros Hname Hext. unfold fileExt, pop. rewrite Hname.
  destruct (split_last "." base ext Hext) as (first & rest & Hsplit).
  change ("." ++ ext) with (String "." ext). rewrite Hsplit.
  apply last_last.
Qed.

Section SubmitLemmas.
Context {E : Engine}.

(** What a submit sends when the upload, if there is one, succeeds. *)
Lemma handleSave_sent (e : env) (w : world) :
  Submit.upload_failure e w = None ->
  exists tail,
    (tail = [] \/ tail = [Select]) /\
    sent (run (handleSave e) w)
    = (sent w ++ Submit.upload_request e (ui w)
              ++ Submit.write_request e (ui w) :: tail)%list.
Proof.
  intros Hu. destruct (fault e (Submit.write_request e (ui w))) as [msg|] eqn:Hw.
  - exists []. split; [now left|]. unfold run.
    now rewrite (handleSave_write_fails e w msg Hu Hw).
  - exists [Select]. split; [now right|]. unfold run.
    rewrite (handleSave_succeeds e w Hu Hw). unfold refreshed.
    destruct (fault e Select); cbn [snd sent]; now rewrite <- !app_assoc.
Qed.

Lemma handleSave_keeps_tires (e : env) (w : world) (msg : string) :
  fault e Select = Some msg ->
  tires (ui (run (handleSave e) w)) = tires (ui w).
Proof.
  intros Hs. unfold run.
  destruct (Submit.upload_failure e w) as [m|] eqn:Hu.
  - now rewrite (handleSave_upload_fails e w m Hu).
  - destruct (fault e (Submit.write_request e (ui w))) as [m|] eqn:Hw.
    + now rewrite (handleSave_write_fails e w m Hu Hw).
    + rewrite (handleSave_succeeds e w Hu Hw). unfold refreshed. now rewrite Hs.
Qed.

End SubmitLemmas.

Lemma handleDelete_keeps_tires (e : env) (row : string) (w : world) (msg : string) :
  fault e Select = Some msg ->
  tires (ui (run (handleDelete e row) w)) = tires (ui w).
Proof.
  intros Hs. unfold run. destruct (confirmed e) eqn:Hc.
  - destruct (fault e (Delete row)) as [m|] eqn:Hd.
    + now rewrite (handleDelete_fails e row w m Hc Hd).
    + rewrite (handleDelete_succeeds e row w Hc Hd). unfold refreshed. now rewrite Hs.
  - now rewrite (handleDelete_declined e row w Hc).
Qed.

(* ================================================================== *)
(** ** The price the draft holds: lemmas *)






Section PriceHeld.
Context {E : Engine}.




End PriceHeld.

(* ================================================================== *)
(** ** The claims *)

(** C1.  The text of the export is the header row (sku, brand, model, size,
    ply, price, condition, quantity, notes, image_path) followed by one row
    per record of the full list, in its order and whatever the search filter
    is; each field is rendered as text, null and undefined as the empty
    string, with every double quote doubled, always between double quotes;
    fields are separated by commas and rows by line breaks.  In the note
    [Sample.said_ok], where ok stands between double quotes, each of the two
    quotes is exported twice and the cell gets a quote at either end. *)
Theorem C1_downloadCSV_text (s : state) :
  downloadCSV s = Some (Spec.csv (tires s)) /\
  (forall q, downloadCSV (with_filter q s) = Some (Spec.csv (tires s))) /\
  csv_cell (VStr Sample.said_ok) =
    Some (str1 dq ++ "He said " ++ str1 dq ++ str1 dq ++ "ok"
            ++ str1 dq ++ str1 dq ++ str1 dq).
Proof.
  split; [|split].
  - apply downloadCSV_csv.
  - intros q. apply (downloadCSV_csv (with_filter q s)).
  - reflexivity.
Qed.

(** C2.  For a record of the table whose sku, brand, model, size, ply and
    notes are strings, whose condition is set, whose price is set or zero and
    whose quantity is a number other than zero: after it is opened for edit
    and saved with no field modified and the update goes through, every
    field of the record but the update time is as before, a price of 0
    included, and the update time is the client clock's reading at submit, so
    that it is later than before exactly when that reading is. *)
Theorem C2_edit_then_save_preserves `{Engine} (e : env) (w : world) (t : tire) :
  In t (table (db w)) ->
  populated t = true ->
  let opened := run (handleEdit t) w in
  let p := Submit.saved_payload e (ui opened) in
  fault e (Update p (id t)) = None ->
  let saved := run (handleSave e) opened in
  Store.overwrite p t = touch (stamp e) t /\
  table (db saved) = Store.update_rows p (id t) (table (db w)) /\
  In (touch (stamp e) t) (table (db saved)) /\
  (exists tail, sent saved = (sent w ++ Update p (id t) :: tail)%list) /\
  (updated_at t < updated_at (touch (stamp e) t) <-> updated_at t < stamp e).
Proof.
  intros Hin Hpop opened p Hfault saved.
  assert (Hrow : Store.overwrite p t = touch (stamp e) t).
  { unfold populated in Hpop.
    repeat (apply andb_true_iff in Hpop as [Hpop ?]).
    subst p opened. open_world w. js_step.
    unfold Store.overwrite, touch, make_payload.
    cbn [p_sku p_brand p_model p_size p_ply p_price p_condition p_quantity
         p_notes p_image_path p_updated_at
         f_sku f_brand f_model f_size f_ply f_price f_condition f_quantity
         f_notes image_file].
    rewrite price_round_trip, quantity_round_trip, !js_or_string by assumption.
    rewrite (js_or_truthy (condition t)) by assumption.
    reflexivity. }
  assert (Hu : Submit.upload_failure e opened = None).
  { subst opened. open_world w. reflexivity. }
  assert (Hw : Submit.write_request e (ui opened) = Update p (id t)).
  { subst p opened. open_world w. reflexivity. }
  assert (Htable : table (db saved) = Store.update_rows p (id t) (table (db w))).
  { subst saved. unfold run at 1.
    rewrite (handleSave_succeeds e opened Hu) by (now rewrite Hw).
    rewrite Hw. subst opened. open_world w. unfold refreshed.
    destruct (fault e Select); reflexivity. }
  split; [exact Hrow|]. split; [exact Htable|]. split; [|split].
  - rewrite Htable. unfold Store.update_rows. apply in_map_iff.
    exists t. split; [|exact Hin]. now rewrite String.eqb_refl.
  - destruct (handleSave_sent e opened Hu) as (tail & _ & Hsent).
    exists tail. fold saved in Hsent. rewrite Hsent, Hw.
    subst opened. open_world w. reflexivity.
  - reflexivity.
Qed.

Lemma C2_witness :
  let w := Sample.world_of [Sample.acme; Sample.zeta] in
  let opened := run (handleEdit Sample.zeta) w in
  let p := @Submit.saved_payload Sample.engine Sample.fair (ui opened) in
  let saved := run (@handleSave Sample.engine Sample.fair) opened in
  Store.overwrite p Sample.zeta = touch (stamp Sample.fair) Sample.zeta /\
  table (db saved) = Store.update_rows p (id Sample.zeta) (table (db w)) /\
  In (touch (stamp Sample.fair) Sample.zeta) (table (db saved)) /\
  (exists tail, sent saved = (sent w ++ Update p (id Sample.zeta) :: tail)%list) /\
  (updated_at Sample.zeta < updated_at (touch (stamp Sample.fair) Sample.zeta)
   <-> updated_at Sample.zeta < stamp Sample.fair).
Proof.
  apply (@C2_edit_then_save_preserves Sample.engine Sample.fair
           (Sample.world_of [Sample.acme; Sample.zeta]) Sample.zeta).
  - right. now left.
  - reflexivity.
  - reflexivity.
Defined.

(** A record out of stock, with no model, saved when the client clock reads
    what the record already holds: the stored row then has quantity 1, the
    empty string for its model, and an update time that is not later. *)
Lemma C2_counterexample :
  let w := Sample.world_of [Sample.sold_out] in
  exists t',
    (forall E : Engine,
       table (db (run (@handleSave E Sample.late)
                      (run (handleEdit Sample.sold_out) w))) = [t']) /\
    quantity Sample.sold_out = VNum (Int 0) /\ quantity t' = VNum (Int 1) /\
    model Sample.sold_out = VNull /\ model t' = VStr "" /\
    updated_at t' = updated_at Sample.sold_out.
Proof.
  eexists. split; [intros E; vm_compute; reflexivity|]. repeat split.
Qed.



(** C4.  On records whose brand, model, size and sku are text (strings, or
    absent), the search returns exactly the records in which the query, with
    the whitespace at its ends removed, occurs in brand, model, size or sku,
    letter case apart; they come in the order of the list, and the empty
    query returns the whole list. *)
Theorem C4_search_trimmed_query (s : state) :
  Forall (fun t => searchable t = true) (tires s) ->
  exists hits,
    filteredTires s = Some hits /\
    hits = List.filter (Spec.foundb (trim (filter s))) (tires s) /\
    (forall t, In t hits <-> In t (tires s) /\ Spec.found (trim (filter s)) t) /\
    (filter s = "" -> hits = tires s).
Proof.
  intros H. exists (List.filter (Spec.foundb (trim (filter s))) (tires s)).
  split; [now apply filteredTires_searchable|].
  split; [reflexivity|]. split.
  - intros t. rewrite filter_In, foundb_found. reflexivity.
  - intros ->. apply filter_all. intros t _. apply foundb_nil.
Qed.

(** The query acme finds the brand Acme Tires. *)
Lemma C4_witness :
  filteredTires (Sample.stock [Sample.acme; Sample.zeta] "acme")
  = Some [Sample.acme].
Proof.
  destruct (C4_search_trimmed_query
              (Sample.stock [Sample.acme; Sample.zeta] "acme"))
    as (hits & Hrun & Hhits & _).
  - repeat constructor.
  - rewrite Hrun, Hhits. reflexivity.
Defined.

(** The query " acme", with a space in front, is in no field of the record,
    and the search still returns the record. *)
Lemma C4_counterexample :
  filteredTires (Sample.stock [Sample.acme] " acme") = Some [Sample.acme] /\
  Spec.foundb " acme" Sample.acme = false /\
  ~ Spec.found " acme" Sample.acme.
Proof.
  split; [reflexivity|]. split; [reflexivity|].
  intros H. apply foundb_found in H. discriminate H.
Qed.

(** C5.  Searching what a search returned, with the same query, returns it
    unchanged; the result is the list with some records left out, in the same
    order; typing a query does not change the list, so that clearing the
    query shows the list again as it was. *)
Theorem C5_search_idempotent (w : world) (q : string) :
  Forall (fun t => searchable t = true) (tires (ui w)) ->
  let typed := run (setFilter q) w in
  let cleared := run (setFilter "") typed in
  exists hits,
    filteredTires (ui typed) = Some hits /\
    filteredTires (with_tires hits (ui typed)) = Some hits /\
    Spec.subsequence hits (tires (ui w)) /\
    tires (ui typed) = tires (ui w) /\
    tires (ui cleared) = tires (ui w) /\
    filteredTires (ui cleared) = Some (tires (ui w)).
Proof.
  intros H typed cleared.
  exists (List.filter (Spec.foundb (trim q)) (tires (ui w))).
  split; [|split; [|split; [|split; [|split]]]].
  - apply (filteredTires_searchable (ui typed)). exact H.
  - rewrite (filteredTires_searchable (with_tires _ (ui typed))).
    + cbn [tires with_tires]. now rewrite filter_twice.
    + cbn [tires with_tires]. apply Forall_forall. intros t Ht.
      apply filter_In in Ht as [Ht _].
      now apply (proj1 (Forall_forall _ _) H).
  - apply filter_subsequence.
  - reflexivity.
  - reflexivity.
  - reflexivity.
Qed.

Lemma C5_witness :
  let w := Sample.world_of [Sample.acme; Sample.zeta] in
  exists hits,
    filteredTires (ui (run (setFilter "zeta") w)) = Some hits /\
    filteredTires (with_tires hits (ui (run (setFilter "zeta") w))) = Some hits /\
    Spec.subsequence hits (tires (ui w)) /\
    tires (ui (run (setFilter "zeta") w)) = tires (ui w) /\
    tires (ui (run (setFilter "") (run (setFilter "zeta") w))) = tires (ui w) /\
    filteredTires (ui (run (setFilter "") (run (setFilter "zeta") w)))
    = Some (tires (ui w)).
Proof.
  apply (C5_search_idempotent (Sample.world_of [Sample.acme; Sample.zeta]) "zeta").
  repeat constructor.
Defined.

(** C6.  When the quantities are integers, or absent, and add up within the
    safe integers, the total of items is the sum of the quantities of all
    records, an absent quantity counting for nothing, and the number of SKUs
    is the number of records; neither depends on the search filter. *)
Theorem C6_totals `{Engine} (s : state) :
  Forall (fun t => integral t = true) (tires s) ->
  Spec.magnitude (tires s) <= safe_bound ->
  inventoryCount s = Int (Spec.total (tires s)) /\
  skuCount s = List.length (tires s) /\
  forall q, inventoryCount (with_filter q s) = inventoryCount s /\
            skuCount (with_filter q s) = skuCount s.
Proof.
  intros Hi Hm. split; [|split].
  - unfold inventoryCount. rewrite count_from; [reflexivity | assumption | simpl; lia].
  - reflexivity.
  - intros q. split; reflexivity.
Qed.

(** Quantities 3 and 5: 8 items, 2 SKUs. *)
Lemma C6_witness :
  @inventoryCount Sample.engine (Sample.stock [Sample.acme; Sample.zeta] "") = Int 8 /\
  skuCount (Sample.stock [Sample.acme; Sample.zeta] "") = 2%nat.
Proof.
  destruct (@C6_totals Sample.engine (Sample.stock [Sample.acme; Sample.zeta] ""))
    as (Htotal & Hcount & _).
  - repeat constructor.
  - vm_compute. discriminate.
  - split; [rewrite Htotal | rewrite Hcount]; reflexivity.
Defined.

(** C7.  A request that fails is met where it was sent: no handler throws, a
    toast carries the message, and the state is what it was before, at rest.
    When a save fails, at the upload or at the write, the form is still open
    on the same draft; when loading the list fails, or a delete, the list is
    the same. *)
Theorem C7_failure_leaves_state `{Engine} (e : env) (w : world) (msg : string) :
  (Submit.upload_failure e w = Some msg \/
   Submit.upload_failure e w = None /\
   fault e (Submit.write_request e (ui w)) = Some msg ->
   fst (handleSave e w) = Ok tt /\
   ui (run (handleSave e) w) = idle (ui w) /\
   toasts (run (handleSave e) w)
   = (toasts w ++ [ToastError (str_or msg "Save failed")])%list) /\
  (fault e Select = Some msg ->
   fst (fetchTires e w) = Ok tt /\
   ui (run (fetchTires e) w) = idle (ui w) /\
   toasts (run (fetchTires e) w)
   = (toasts w ++ [ToastError ("Failed to load tires: " ++ msg)])%list /\
   tires (ui (run (handleSave e) w)) = tires (ui w) /\
   forall row, tires (ui (run (handleDelete e row) w)) = tires (ui w)) /\
  (forall row, confirmed e = true -> fault e (Delete row) = Some msg ->
   fst (handleDelete e row w) = Ok tt /\
   ui (run (handleDelete e row) w) = idle (ui w) /\
   db (run (handleDelete e row) w) = db w /\
   toasts (run (handleDelete e row) w)
   = (toasts w ++ [ToastError ("Delete failed: " ++ msg)])%list) /\
  formOpen (idle (ui w)) = formOpen (ui w) /\
  form (idle (ui w)) = form (ui w) /\
  editing (idle (ui w)) = editing (ui w) /\
  tires (idle (ui w)) = tires (ui w) /\
  (loading (ui w) = false -> idle (ui w) = ui w).
Proof.
  split; [|split; [|split]].
  - unfold run. intros [Hu | [Hu Hw]].
    + now rewrite (handleSave_upload_fails e w msg Hu).
    + now rewrite (handleSave_write_fails e w msg Hu Hw).
  - intros Hs. unfold run at 1 2. rewrite fetchTires_refreshed.
    unfold refreshed. rewrite Hs. repeat split.
    + now apply handleSave_keeps_tires with msg.
    + intros row. now apply handleDelete_keeps_tires with msg.
  - intros row Hc Hd. unfold run.
    now rewrite (handleDelete_fails e row w msg Hc Hd).
  - repeat split. apply idle_at_rest.
Qed.

(** Offline, a save of a draft leaves the form open on the draft. *)
Lemma C7_witness :
  let w := Sample.drafting (Sample.draft (VStr "49.99") (VStr "4"))
             (Sample.world_of [Sample.acme]) in
  ui (run (@handleSave Sample.engine Sample.offline) w) = ui w /\
  formOpen (ui (run (@handleSave Sample.engine Sample.offline) w)) = true /\
  ui (run (fetchTires Sample.offline) w) = ui w /\
  ui (run (handleDelete Sample.offline "a1") w) = ui w.
Proof.
  intros w.
  destruct (@C7_failure_leaves_state Sample.engine Sample.offline w "Failed to fetch")
    as (Hsave & Hfetch & Hdelete & _ & _ & _ & _ & Hrest).
  destruct Hsave as (_ & Hui & _); [right; split; reflexivity|].
  destruct Hfetch as (_ & Hui' & _); [reflexivity|].
  destruct (Hdelete "a1") as (_ & Hui'' & _); [reflexivity | reflexivity|].
  rewrite Hui, Hui', Hui'', Hrest by reflexivity.
  repeat split.
Defined.

(** C8.  A delete that the user declines changes nothing and sends nothing,
    so that a delete request is only ever sent after the user confirmed; a
    confirmed delete that succeeds is followed by a reload of the list, which
    then shows the table without the row. *)
Theorem C8_delete_after_confirm (e : env) (row : string) (w : world) :
  (confirmed e = false -> handleDelete e row w = (Ok tt, w)) /\
  (forall r, In (Delete r) (sent (run (handleDelete e row) w)) ->
             In (Delete r) (sent w) \/ confirmed e = true) /\
  (confirmed e = true -> fault e (Delete row) = None ->
   table (db (run (handleDelete e row) w))
   = Store.delete_rows row (table (db w)) /\
   sent (run (handleDelete e row) w) = (sent w ++ [Delete row; Select])%list /\
   (fault e Select = None ->
    tires (ui (run (handleDelete e row) w))
    = Store.select_all (Store.delete_rows row (table (db w))))).
Proof.
  split; [|split].
  - apply handleDelete_declined.
  - intros r Hr. destruct (confirmed e) eqn:Hc; [now right|].
    left. unfold run in Hr. now rewrite (handleDelete_declined e row w Hc) in Hr.
  - intros Hc Hd. unfold run. rewrite (handleDelete_succeeds e row w Hc Hd).
    unfold refreshed.
    destruct (fault e Select) as [m|]; cbn [snd db sent table ui];
      rewrite <- app_assoc; repeat split; discriminate.
Qed.

Lemma C8_witness :
  let w := Sample.world_of [Sample.acme; Sample.zeta] in
  run (handleDelete Sample.declined "a1") w = w /\
  tires (ui (run (handleDelete Sample.fair "a1") w)) = [Sample.zeta] /\
  sent (run (handleDelete Sample.fair "a1") w) = [Delete "a1"; Select].
Proof.
  intros w.
  destruct (C8_delete_after_confirm Sample.declined "a1" w) as (Hno & _).
  destruct (C8_delete_after_confirm Sample.fair "a1" w) as (_ & _ & Hyes).
  destruct Hyes as (_ & Hsent & Hlist); [reflexivity | reflexivity |].
  split; [|split].
  - unfold run. now rewrite Hno.
  - now rewrite Hlist.
  - now rewrite Hsent.
Defined.

(** C9.  On a submit with a pending file, the file is uploaded first, under a
    name made of the clock reading, a dash, the random draw in base 36
    without its first two characters, a dot and what follows the last dot of
    the file's own name; when the upload succeeds the name was not taken, it
    is the image reference of the payload, and the write comes after the
    upload; when the upload fails nothing is written.  With no pending file
    nothing is uploaded and the payload keeps the image reference of the
    record under edit, or null for a new record. *)
Theorem C9_image_reference `{Engine} (e : env) (w : world) :
  let s := ui w in
  let p := Submit.saved_payload e s in
  let write := match editing s with
               | Some t => Update p (id t)
               | None => Insert p
               end in
  (forall f, image_file (form s) = Some f ->
     fileName e f
     = of_Z (now e) ++ "-" ++ slice 2 (random36 e) ++ "." ++ fileExt f /\
     (forall base ext,
        name f = base ++ "." ++ ext ->
        Literal.all_chars (fun a => negb (Ascii.eqb a ".")) ext = true ->
        fileExt f = ext) /\
     (Store.failure e (Upload (fileName e f) f) (db w) = None ->
      Store.has_blob (fileName e f) (db w) = false /\
      p_image_path p = VStr (fileName e f) /\
      exists tail,
        (tail = [] \/ tail = [Select]) /\
        sent (run (handleSave e) w)
        = (sent w ++ Upload (fileName e f) f :: write :: tail)%list) /\
     (forall msg,
        Store.failure e (Upload (fileName e f) f) (db w) = Some msg ->
        sent (run (handleSave e) w) = (sent w ++ [Upload (fileName e f) f])%list)) /\
  (image_file (form s) = None ->
     p_image_path p = match editing s with
                      | Some t => image_path t
                      | None => VNull
                      end /\
     exists tail,
       (tail = [] \/ tail = [Select]) /\
       sent (run (handleSave e) w) = (sent w ++ write :: tail)%list).
Proof.
  intros s p write. split.
  - intros f Hf. split; [reflexivity|]. split; [|split].
    + intros base ext. apply fileExt_after_last_dot.
    + intros Hup.
      assert (Hu : Submit.upload_failure e w = None)
        by (unfold Submit.upload_failure; fold s; now rewrite Hf).
      split; [|split].
      * unfold Store.failure in Hup.
        destruct (fault e (Upload (fileName e f) f)); [discriminate|].
        destruct (Store.has_blob (fileName e f) (db w)); [discriminate | reflexivity].
      * subst p. unfold Submit.saved_payload, Submit.image_reference.
        now rewrite Hf.
      * destruct (handleSave_sent e w Hu) as (tail & Htail & Hsent).
        exists tail. split; [exact Htail|]. rewrite Hsent.
        unfold Submit.upload_request. fold s. rewrite Hf. reflexivity.
    + intros msg Hup.
      assert (Hu : Submit.upload_failure e w = Some msg)
        by (unfold Submit.upload_failure; fold s; now rewrite Hf).
      unfold run. rewrite (handleSave_upload_fails e w msg Hu).
      unfold Submit.upload_request. fold s. now rewrite Hf.
  - intros Hf.
    assert (Hu : Submit.upload_failure e w = None)
      by (unfold Submit.upload_failure; fold s; now rewrite Hf).
    split.
    + subst p. unfold Submit.saved_payload, Submit.image_reference.
      now rewrite Hf.
    + destruct (handleSave_sent e w Hu) as (tail & Htail & Hsent).
      exists tail. split; [exact Htail|]. rewrite Hsent.
      unfold Submit.upload_request. fold s. rewrite Hf. reflexivity.
Qed.

(** photo.jpg, submitted at 1700000000000 with the draw 0.4fzyo82mvyr, is
    stored as 1700000000000-4fzyo82mvyr.jpg, and the row inserted refers to
    it. *)
Lemma C9_witness :
  let w := Sample.drafting Sample.draft_with_photo (Sample.world_of []) in
  let p := @Submit.saved_payload Sample.engine Sample.fair (ui w) in
  fileName Sample.fair Sample.photo = "1700000000000-4fzyo82mvyr.jpg" /\
  fileExt Sample.photo = "jpg" /\
  p_image_path p = VStr "1700000000000-4fzyo82mvyr.jpg" /\
  sent (run (@handleSave Sample.engine Sample.fair) w)
  = [Upload "1700000000000-4fzyo82mvyr.jpg" Sample.photo; Insert p; Select].
Proof.
  intros w p.
  destruct (@C9_image_reference Sample.engine Sample.fair w) as (Hfile & _).
  destruct (Hfile Sample.photo eq_refl) as (Hname & Hext & Hok & _).
  destruct (Hok eq_refl) as (_ & Hpath & tail & _ & Hsent).
  split; [|split; [|split]].
  - rewrite Hname. reflexivity.
  - apply (Hext "photo" "jpg"); reflexivity.
  - exact Hpath.
  - reflexivity.
Defined.

(** C10.  The query is trimmed before the search: a query of whitespace only
    returns the whole list, and whitespace before and after a query changes
    nothing in what the search returns. *)
Theorem C10_query_is_trimmed (s : state) (a q b : string) :
  Literal.all_chars is_space a = true ->
  Literal.all_chars is_space b = true ->
  filteredTires (with_filter a s) = Some (tires s) /\
  filteredTires (with_filter (a ++ q ++ b) s) = filteredTires (with_filter q s).
Proof.
  intros Ha Hb. split.
  - apply (filteredTires_blank (with_filter a s)). now apply trim_spaces.
  - unfold filteredTires. cbn [filter tires with_filter].
    now rewrite trim_padded.
Qed.

Lemma C10_witness :
  let s := Sample.stock [Sample.acme; Sample.zeta] "" in
  filteredTires (with_filter "  " s) = Some (tires s) /\
  filteredTires (with_filter ("  " ++ "acme" ++ " ") s)
  = filteredTires (with_filter "acme" s).
Proof.
  apply (C10_query_is_trimmed (Sample.stock [Sample.acme; Sample.zeta] "")
           "  " "acme" " "); reflexivity.
Defined.

(* ================================================================== *)
(** ** Further properties *)

(** *** The export read back *)

Lemma scan_body (s cell : string) rows row (rest : string) :
  Csv.scan (Csv.InField cell) rows row (Spec.double_quotes s ++ String dq rest)
  = Csv.scan (Csv.AfterQuote (cell ++ s)) rows row rest.
Proof.
  revert cell. induction s as [|a s IH]; intros cell.
  - cbn. now rewrite append_nil_r.
  - cbn [Spec.double_quotes]. destruct (Ascii.eqb a dq) eqn:Ha.
    + apply Ascii.eqb_eq in Ha. subst a. cbn [append Csv.scan].
      rewrite Ascii.eqb_refl. rewrite IH.
      now rewrite append_assoc.
    + cbn [append Csv.scan]. rewrite Ha, IH. now rewrite append_assoc.
Qed.

Lemma scan_cell (x : string) rows row (rest : string) :
  Csv.scan Csv.AtField rows row (Csv.quote_cell x ++ rest)
  = Csv.scan (Csv.AfterQuote x) rows row rest.
Proof.
  unfold Csv.quote_cell, Spec.wrap. cbn [append Csv.scan]. rewrite Ascii.eqb_refl.
  rewrite append_assoc. cbn [append str1]. now rewrite scan_body.
Qed.

Lemma scan_line (xs : list string) (x : string) rows row (rest : string) :
  Csv.scan Csv.AtField rows row (Csv.quote_line (xs ++ [x]) ++ rest)
  = Csv.scan (Csv.AfterQuote x) rows (row ++ xs) rest.
Proof.
  revert row. induction xs as [|y ys IH]; intros row.
  - cbn. rewrite app_nil_r. apply scan_cell.
  - assert (Hline : Csv.quote_line ((y :: ys) ++ [x])
                    = Csv.quote_cell y ++ "," ++ Csv.quote_line (ys ++ [x])).
    { unfold Csv.quote_line, join. cbn [app map String.concat].
      destruct (map Csv.quote_cell (ys ++ [x])) eqn:Hm; [|reflexivity].
      destruct ys; discriminate. }
    rewrite Hline, append_assoc, scan_cell.
    cbn [append Csv.scan].
    change (Ascii.eqb "," dq) with false.
    change (Ascii.eqb "," Csv.comma) with true. cbv iota. rewrite IH. now rewrite <- app_assoc.
Qed.

Lemma record_line_quoted (t : tire) :
  Spec.record_line t = Csv.quote_line (Csv.fields t).
Proof. reflexivity. Qed.

Lemma header_line_quoted : Spec.header_line = Csv.quote_line Csv.header.
Proof. reflexivity. Qed.

Lemma scan_rows (l : list tire) (x : string) rows row :
  Csv.scan (Csv.AfterQuote x) rows row (Spec.rows l)
  = Some (rows ++ (row ++ [x]) :: map Csv.fields l)%list.
Proof.
  revert x rows row. induction l as [|t l IH]; intros x rows row.
  - reflexivity.
  - cbn [Spec.rows newline str1 append Csv.scan map].
    change (Ascii.eqb "010" dq) with false.
    change (Ascii.eqb "010" Csv.comma) with false.
    change (Ascii.eqb "010" Csv.lf) with true. cbv iota.
    rewrite record_line_quoted.
    change (Csv.fields t)
      with ([Spec.stringify (sku t); Spec.stringify (brand t);
             Spec.stringify (model t); Spec.stringify (size t);
             Spec.stringify (ply t); Spec.stringify (price t);
             Spec.stringify (condition t); Spec.stringify (quantity t);
             Spec.stringify (notes t)] ++ [Spec.stringify (image_path t)])%list.
    rewrite scan_line, IH. rewrite <- app_assoc. reflexivity.
Qed.

Lemma read_csv (l : list tire) :
  Csv.read (Spec.csv l) = Some (Csv.header :: map Csv.fields l).
Proof.
  unfold Csv.read, Spec.csv. rewrite header_line_quoted.
  change Csv.header
    with (["sku"; "brand"; "model"; "size"; "ply"; "price"; "condition";
           "quantity"; "notes"] ++ ["image_path"])%list at 1.
  rewrite scan_line, scan_rows. reflexivity.
Qed.

(** X1.  The exported text reads back: a reader of quoted fields gets the
    ten column names and then, for each record of the list and in its order,
    the ten fields as rendered, whatever commas, quotes and line breaks they
    hold. *)
Theorem X1_export_reads_back (s : state) :
  exists text,
    downloadCSV s = Some text /\
    Csv.read text = Some (Csv.header :: map Csv.fields (tires s)).
Proof.
  exists (Spec.csv (tires s)). split; [apply downloadCSV_csv | apply read_csv].
Qed.

(** X2.  Two lists with the same export have the same fields, record by
    record: the export loses nothing of what it renders. *)
Theorem X2_export_is_faithful (s1 s2 : state) :
  downloadCSV s1 = downloadCSV s2 ->
  map Csv.fields (tires s1) = map Csv.fields (tires s2).
Proof.
  rewrite !downloadCSV_csv. intros H.
  apply (f_equal (fun o => match o with
                           | Some text => Csv.read text
                           | None => None
                           end)) in H.
  rewrite !read_csv in H. now injection H.
Qed.

Lemma X2_witness :
  map Csv.fields (tires (Sample.stock [Sample.acme; Sample.zeta] ""))
  = map Csv.fields (tires (Sample.stock [Sample.acme; Sample.zeta] "acme")).
Proof.
  apply (X2_export_is_faithful (Sample.stock [Sample.acme; Sample.zeta] "")
           (Sample.stock [Sample.acme; Sample.zeta] "acme")).
  reflexivity.
Defined.

(** *** Searching within what was found *)

Lemma substring_of_trans (a b c : string) :
  Spec.substring_of a b -> Spec.substring_of b c -> Spec.substring_of a c.
Proof.
  intros (p & q & ->) (r & t & ->). exists (r ++ p), (q ++ t).
  now rewrite !append_assoc.
Qed.

Lemma has_narrower (q1 q2 : string) (v : value) :
  Spec.substring_ci q1 q2 -> Spec.has q2 v = true -> Spec.has q1 v = true.
Proof.
  intros H12 H2. apply has_occurs. apply has_occurs in H2.
  unfold Spec.substring_ci in *. now apply substring_of_trans with (toLowerCase q2).
Qed.

Lemma foundb_narrower (q1 q2 : string) (t : tire) :
  Spec.substring_ci q1 q2 -> Spec.foundb q2 t = true -> Spec.foundb q1 t = true.
Proof.
  intros H12. unfold Spec.foundb. rewrite !orb_true_iff.
  intros [[[H | H] | H] | H]; apply (has_narrower q1 q2 _ H12) in H; tauto.
Qed.

Lemma filter_within {A} (g1 g2 : A -> bool) (l : list A) :
  (forall x, g2 x = true -> g1 x = true) ->
  List.filter g2 (List.filter g1 l) = List.filter g2 l.
Proof.
  intros H. induction l as [|x l IH]; simpl; [reflexivity|].
  destruct (g1 x) eqn:H1; simpl.
  - now rewrite IH.
  - destruct (g2 x) eqn:H2; [|exact IH]. apply H in H2. congruence.
Qed.

Lemma searchable_filter (g : tire -> bool) (l : list tire) :
  Forall (fun t => searchable t = true) l ->
  Forall (fun t => searchable t = true) (List.filter g l).
Proof.
  intros H. apply Forall_forall. intros t Ht. apply filter_In in Ht as [Ht _].
  now apply (proj1 (Forall_forall _ _) H).
Qed.

(** X3.  When a query holds an earlier query (letter case and the space
    around them apart), what it finds is found by the earlier query too, and
    searching it in the earlier hits gives the same as searching it in the
    whole list: typing on narrows the result. *)
Theorem X3_longer_query_narrows (s : state) (q1 q2 : string) :
  Forall (fun t => searchable t = true) (tires s) ->
  Spec.substring_ci (trim q1) (trim q2) ->
  exists hits1 hits2,
    filteredTires (with_filter q1 s) = Some hits1 /\
    filteredTires (with_filter q2 s) = Some hits2 /\
    filteredTires (with_filter q2 (with_tires hits1 s)) = Some hits2 /\
    Spec.subsequence hits2 hits1.
Proof.
  intros Hs H12.
  exists (List.filter (Spec.foundb (trim q1)) (tires s)),
         (List.filter (Spec.foundb (trim q2)) (tires s)).
  assert (Hin : List.filter (Spec.foundb (trim q2))
                  (List.filter (Spec.foundb (trim q1)) (tires s))
                = List.filter (Spec.foundb (trim q2)) (tires s))
    by (apply filter_within; intros t; now apply foundb_narrower).
  split; [|split; [|split]].
  - now apply (filteredTires_searchable (with_filter q1 s)).
  - now apply (filteredTires_searchable (with_filter q2 s)).
  - rewrite (filteredTires_searchable (with_filter q2 (with_tires _ s))).
    + cbn [tires filter with_filter with_tires]. now rewrite Hin.
    + cbn [tires with_filter with_tires]. now apply searchable_filter.
  - rewrite <- Hin. apply filter_subsequence.
Qed.

Lemma X3_witness :
  let s := Sample.stock [Sample.acme; Sample.zeta; Sample.sold_out] "" in
  exists hits1 hits2,
    filteredTires (with_filter "ac" s) = Some hits1 /\
    filteredTires (with_filter " Acme T" s) = Some hits2 /\
    filteredTires (with_filter " Acme T" (with_tires hits1 s)) = Some hits2 /\
    Spec.subsequence hits2 hits1.
Proof.
  apply (X3_longer_query_narrows
           (Sample.stock [Sample.acme; Sample.zeta; Sample.sold_out] "")
           "ac" " Acme T").
  - repeat constructor.
  - exists "", "me t". reflexivity.
Defined.

(** *** A submit, step by step *)

Section SubmitOutcomes.
Context {E : Engine}.

(** X4.  A save that goes through closes the form, puts the default draft
    back, forgets the record under edit, shows the toast of an insert or of
    an update according to what it was, and ends at rest with the search
    query as it was; when the reload succeeds too the list is the table as
    written. *)
Theorem X4_save_leaves_clean_form (e : env) (w : world) :
  Submit.upload_failure e w = None ->
  fault e (Submit.write_request e (ui w)) = None ->
  let w' := run (handleSave e) w in
  formOpen (ui w') = false /\
  form (ui w') = empty_form /\
  editing (ui w') = None /\
  loading (ui w') = false /\
  filter (ui w') = filter (ui w) /\
  In (Submit.success_toast (ui w)) (toasts w') /\
  db w' = Store.apply e (Submit.write_request e (ui w)) (Submit.uploaded e w) /\
  (fault e Select = None -> tires (ui w') = Store.select_all (table (db w'))).
Proof.
  intros Hu Hw w'. subst w'. unfold run.
  rewrite (handleSave_succeeds e w Hu Hw). unfold refreshed.
  destruct (fault e Select) as [m|]; cbn [snd ui db toasts];
    repeat split; try discriminate;
    repeat (apply in_or_app; first [now right; left | left]).
Qed.

End SubmitOutcomes.

Lemma X4_witness :
  let w' := run (@handleSave Sample.engine Sample.fair) Scene.adding in
  formOpen (ui w') = false /\ form (ui w') = empty_form /\
  editing (ui w') = None /\ loading (ui w') = false /\
  List.length (tires (ui w')) = 3%nat /\
  toasts w' = [ToastSuccess "Tire added"].
Proof.
  cbv zeta.
  destruct (@X4_save_leaves_clean_form Sample.engine Sample.fair Scene.adding)
    as (Hopen & Hform & Hedit & Hload & _ & _ & _ & Hlist); try reflexivity.
  rewrite Hopen, Hform, Hedit, Hload, Hlist by reflexivity.
  repeat split.
Defined.

Lemma success_toast_is_success `{Engine} (s : state) :
  exists m, Submit.success_toast s = ToastSuccess m.
Proof. unfold Submit.success_toast. destruct (editing s); eauto. Qed.

(** X5.  The toast of success is shown exactly when the upload, if any, and
    the write both went through; a save that fails shows one toast, of error,
    with the message of the failure, or with Save failed when the message is
    empty. *)
Theorem X5_success_toast_means_written `{Engine} (e : env) (w : world) :
  exists shown,
    toasts (run (handleSave e) w) = (toasts w ++ shown)%list /\
    (In (Submit.success_toast (ui w)) shown <->
     Submit.upload_failure e w = None /\
     fault e (Submit.write_request e (ui w)) = None) /\
    (forall m, In (ToastSuccess m) shown ->
               ToastSuccess m = Submit.success_toast (ui w)) /\
    (forall msg,
       Submit.upload_failure e w = Some msg \/
       Submit.upload_failure e w = None /\
       fault e (Submit.write_request e (ui w)) = Some msg ->
       shown = [ToastError (str_or msg "Save failed")]) /\
    str_or "" "Save failed" = "Save failed".
Proof.
  destruct (success_toast_is_success (ui w)) as (ok & Hok).
  unfold run.
  destruct (Submit.upload_failure e w) as [m|] eqn:Hu.
  - rewrite (handleSave_upload_fails e w m Hu).
    exists [ToastError (str_or m "Save failed")]. cbn [snd toasts].
    split; [reflexivity|]. split; [|split; [|split]].
    + rewrite Hok. split; [intros [F|[]]; discriminate F | intros [F _]; discriminate F].
    + intros x [F|[]]. discriminate F.
    + intros msg [F | [F _]]; [injection F as <-; reflexivity | discriminate F].
    + reflexivity.
  - destruct (fault e (Submit.write_request e (ui w))) as [m|] eqn:Hw.
    + rewrite (handleSave_write_fails e w m Hu Hw).
      exists [ToastError (str_or m "Save failed")]. cbn [snd toasts].
      split; [reflexivity|]. split; [|split; [|split]].
      * rewrite Hok. split; [intros [F|[]]; discriminate F | intros [_ F]; discriminate F].
      * intros x [F|[]]. discriminate F.
      * intros msg [F | [_ F]]; [discriminate F | injection F as <-; reflexivity].
      * reflexivity.
    + rewrite (handleSave_succeeds e w Hu Hw). unfold refreshed.
      destruct (fault e Select) as [m|]; cbn [snd toasts].
      * exists [Submit.success_toast (ui w);
                ToastError ("Failed to load tires: " ++ m)].
        split; [now rewrite <- app_assoc|]. split; [|split; [|split]].
        -- split; [now intros _ | intros _; now left].
        -- intros x [F | [F | []]]; [now rewrite <- F | discriminate F].
        -- intros msg [F | [_ F]]; discriminate F.
        -- reflexivity.
      * exists [Submit.success_toast (ui w)].
        split; [reflexivity|]. split; [|split; [|split]].
        -- split; [now intros _ | intros _; now left].
        -- intros x [F | []]. now rewrite <- F.
        -- intros msg [F | [_ F]]; discriminate F.
        -- reflexivity.
Qed.

(** A write refused with no message: one toast, Save failed. *)
Lemma X5_witness :
  toasts (run (@handleSave Sample.engine Scene.refused) Scene.adding_four)
  = [ToastError "Save failed"].
Proof.
  destruct (@X5_success_toast_means_written Sample.engine Scene.refused
              Scene.adding_four) as (shown & Hshown & _ & _ & Hfail & _).
  rewrite Hshown, (Hfail ""); [reflexivity|].
  right. split; reflexivity.
Defined.

(** X6.  When the upload goes through and the write then fails, the file
    stays in the bucket under its new name while the table and the state are
    as before: no row having carried that name before the save, no row
    refers to the stored file after it. *)
Theorem X6_upload_outlives_failed_write `{Engine}
    (e : env) (w : world) (f : file) (msg : string) :
  image_file (form (ui w)) = Some f ->
  Store.failure e (Upload (fileName e f) f) (db w) = None ->
  fault e (Submit.write_request e (ui w)) = Some msg ->
  let w' := run (handleSave e) w in
  bucket (db w') = (bucket (db w) ++ [(fileName e f, f)])%list /\
  Store.has_blob (fileName e f) (db w) = false /\
  Store.has_blob (fileName e f) (db w') = true /\
  table (db w') = table (db w) /\
  ui w' = idle (ui w) /\
  (Forall (fun t => image_path t <> VStr (fileName e f)) (table (db w)) ->
   Forall (fun t => image_path t <> VStr (fileName e f)) (table (db w'))).
Proof.
  intros Hf Hup Hw w'. subst w'.
  assert (Hu : Submit.upload_failure e w = None)
    by (unfold Submit.upload_failure; now rewrite Hf).
  unfold run. rewrite (handleSave_write_fails e w msg Hu Hw).
  cbn [snd db ui]. unfold Submit.uploaded. rewrite Hf.
  cbn [Store.apply bucket table]. repeat split.
  - unfold Store.failure in Hup.
    destruct (fault e (Upload (fileName e f) f)); [discriminate|].
    now destruct (Store.has_blob (fileName e f) (db w)).
  - unfold Store.has_blob. cbn [bucket]. rewrite existsb_app. cbn.
    now rewrite String.eqb_refl, orb_true_r.
  - intros Hfree. exact Hfree.
Qed.

Lemma X6_witness :
  let w' := run (@handleSave Sample.engine Scene.refused) Scene.adding in
  bucket (db w') = [("1700000000000-4fzyo82mvyr.jpg", Sample.photo)] /\
  table (db w') = table (db Scene.adding) /\
  ui w' = ui Scene.adding /\
  Forall (fun t => image_path t <> VStr "1700000000000-4fzyo82mvyr.jpg")
         (table (db w')).
Proof.
  cbv zeta.
  destruct (@X6_upload_outlives_failed_write Sample.engine Scene.refused
              Scene.adding Sample.photo "")
    as (Hbucket & _ & _ & Htable & Hui & Hfree); try reflexivity.
  split; [now rewrite Hbucket|]. split; [exact Htable|]. split; [now rewrite Hui|].
  apply Hfree. repeat constructor; discriminate.
Defined.

Lemma fileName_not_empty (e : env) (f : file) : is_empty (fileName e f) = false.
Proof. unfold fileName. now destruct (of_Z (now e)). Qed.

Lemma image_src_of_upload (base : string) (e : env) (f : file) (t : tire) :
  image_path t = VStr (fileName e f) ->
  image_src base t
  = Some (base ++ "/storage/v1/object/public/tire-images/" ++ fileName e f).
Proof.
  intros H. unfold image_src. rewrite H. cbn [truthy template].
  now rewrite fileName_not_empty.
Qed.

(** X7.  After a save with a pending file that goes through, the file is in
    the bucket under the name the rows written refer to: every row of the
    table is a row that was there and was not addressed, or a row whose card
    shows the image of that name. *)
Theorem X7_written_reference_is_stored `{Engine}
    (e : env) (w : world) (f : file) (base : string) :
  image_file (form (ui w)) = Some f ->
  Store.failure e (Upload (fileName e f) f) (db w) = None ->
  fault e (Submit.write_request e (ui w)) = None ->
  let w' := run (handleSave e) w in
  Store.has_blob (fileName e f) (db w') = true /\
  forall t, In t (table (db w')) ->
    (In t (table (db w)) /\
     forall u, editing (ui w) = Some u -> id t <> id u) \/
    image_src base t
    = Some (base ++ "/storage/v1/object/public/tire-images/" ++ fileName e f).
Proof.
  intros Hf Hup Hw w'. subst w'.
  assert (Hu : Submit.upload_failure e w = None)
    by (unfold Submit.upload_failure; now rewrite Hf).
  assert (Hdb : db (run (handleSave e) w)
                = Store.apply e (Submit.write_request e (ui w)) (Submit.uploaded e w)).
  { unfold run. rewrite (handleSave_succeeds e w Hu Hw). unfold refreshed.
    now destruct (fault e Select). }
  rewrite Hdb. clear Hdb. unfold Submit.uploaded. rewrite Hf.
  unfold Submit.write_request, Submit.saved_payload, Submit.image_reference in *.
  rewrite Hf in *.
  assert (Hblob : forall l, existsb (fun kv => String.eqb (fst kv) (fileName e f))
                              (l ++ [(fileName e f, f)]) = true).
  { intros l. rewrite existsb_app. cbn. now rewrite String.eqb_refl, orb_true_r. }
  destruct (editing (ui w)) as [u|];
    cbn [Store.apply table bucket]; unfold Store.has_blob; cbn [bucket].
  - split; [apply Hblob|].
    intros t Ht. unfold Store.update_rows in Ht. apply in_map_iff in Ht.
    destruct Ht as (t0 & Ht & Hin).
    destruct (String.eqb (id t0) (id u)) eqn:Hid.
    + right. subst t. now apply image_src_of_upload.
    + left. subst t. split; [exact Hin|].
      intros u' Hu'. injection Hu' as <-. now apply String.eqb_neq.
  - split; [apply Hblob|].
    intros t Ht. apply in_app_or in Ht as [Ht | [<- | []]].
    + left. split; [exact Ht | discriminate].
    + right. now apply image_src_of_upload.
Qed.

Lemma X7_witness :
  let w' := run (@handleSave Sample.engine Sample.fair) Scene.adding in
  Store.has_blob "1700000000000-4fzyo82mvyr.jpg" (db w') = true /\
  map (image_src "https://x.supabase.co") (table (db w'))
  = [None;
     Some "https://x.supabase.co/storage/v1/object/public/tire-images/1700000000000-4fzyo82mvyr.png";
     Some "https://x.supabase.co/storage/v1/object/public/tire-images/1700000000000-4fzyo82mvyr.jpg"].
Proof.
  cbv zeta.
  destruct (@X7_written_reference_is_stored Sample.engine Sample.fair
              Scene.adding Sample.photo "https://x.supabase.co")
    as (Hblob & _); try reflexivity.
  split; [exact Hblob | reflexivity].
Defined.

(** *** What each handler asks of the backend *)

Lemma others_update_rows (p : payload) (row : string) (rows : list tire) :
  others row (Store.update_rows p row rows) = others row rows.
Proof.
  unfold others, Store.update_rows.
  induction rows as [|t rows IH]; [reflexivity|]. cbn [map List.filter].
  destruct (String.eqb (id t) row) eqn:Hid; cbn [Store.overwrite id];
    rewrite Hid; cbn [negb]; now rewrite IH.
Qed.

Lemma id_update_rows (p : payload) (row : string) (rows : list tire) :
  map id (Store.update_rows p row rows) = map id rows /\
  map created_at (Store.update_rows p row rows) = map created_at rows.
Proof.
  unfold Store.update_rows. rewrite !map_map. split; apply map_ext; intros t;
    now destruct (String.eqb (id t) row).
Qed.

(** X8.  A save sends no delete, at most one upload and at most one write; a
    delete sends no upload and no write, and deletes no row but the one asked
    for; loading the list sends one select and leaves the backend as it is;
    opening, filling, cancelling the form and searching send nothing, change
    nothing in the backend, show no toast and keep the list. *)
Theorem X8_requests_of_each_handler `{Engine}
    (e : env) (w : world) (row : string) (t : tire) (c : control)
    (text : string) (f : option file) :
  (exists l,
     sent (run (handleSave e) w) = (sent w ++ l)%list /\
     forallb (fun r => negb (is_delete r)) l = true /\
     (List.length (List.filter is_upload l) <= 1)%nat /\
     (List.length (List.filter is_write l) <= 1)%nat) /\
  (exists l,
     sent (run (handleDelete e row) w) = (sent w ++ l)%list /\
     forallb (fun r => negb (is_upload r) && negb (is_write r)) l = true /\
     forall r, In (Delete r) l -> r = row) /\
  (sent (run (fetchTires e) w) = (sent w ++ [Select])%list /\
   db (run (fetchTires e) w) = db w) /\
  (forall m,
     In m [handleEdit t; openCreate; cancel; resetForm; onChange c text;
           onFile f; setFilter text] ->
     sent (run m w) = sent w /\ db (run m w) = db w /\
     toasts (run m w) = toasts w /\ tires (ui (run m w)) = tires (ui w)).
Proof.
  split; [|split; [|split]].
  - destruct (Submit.upload_failure e w) as [m|] eqn:Hu.
    + exists (Submit.upload_request e (ui w)). unfold run.
      rewrite (handleSave_upload_fails e w m Hu). cbn [snd sent].
      split; [reflexivity|]. unfold Submit.upload_request.
      destruct (image_file (form (ui w))); cbn; repeat split; lia.
    + destruct (handleSave_sent e w Hu) as (tail & Htail & Hsent).
      exists (Submit.upload_request e (ui w)
                ++ Submit.write_request e (ui w) :: tail)%list.
      split; [exact Hsent|].
      unfold Submit.upload_request, Submit.write_request.
      destruct (image_file (form (ui w))), (editing (ui w)),
        Htail as [-> | ->]; cbn; repeat split; lia.
  - unfold run. destruct (confirmed e) eqn:Hc.
    + destruct (fault e (Delete row)) as [m|] eqn:Hd.
      * rewrite (handleDelete_fails e row w m Hc Hd). exists [Delete row].
        cbn [snd sent]. repeat split. intros r [Hr | []]. now injection Hr.
      * rewrite (handleDelete_succeeds e row w Hc Hd). exists [Delete row; Select].
        unfold refreshed. destruct (fault e Select); cbn [snd sent];
          rewrite <- app_assoc; repeat split;
          intros r [Hr | [Hr | []]]; try discriminate Hr; now injection Hr.
    + rewrite (handleDelete_declined e row w Hc). exists [].
      cbn [snd]. rewrite app_nil_r. repeat split. intros r [].
  - unfold run. rewrite fetchTires_refreshed. unfold refreshed.
    destruct (fault e Select); split; reflexivity.
  - intros m Hm. cbn [In] in Hm.
    repeat (destruct Hm as [<- | Hm]; [open_world w; repeat split|]).
    destruct Hm.
Qed.

(** X9.  A save of a record under edit leaves every other row as it is and
    changes no identifier and no creation time; a save of a new record keeps
    the rows there are and adds at most one, under the identifier the table
    gives; a delete leaves every row but the one asked for. *)
Theorem X9_only_the_addressed_row `{Engine} (e : env) (w : world) (row : string) :
  (forall t, editing (ui w) = Some t ->
     others (id t) (table (db (run (handleSave e) w)))
     = others (id t) (table (db w)) /\
     map id (table (db (run (handleSave e) w))) = map id (table (db w)) /\
     map created_at (table (db (run (handleSave e) w)))
     = map created_at (table (db w))) /\
  (editing (ui w) = None ->
     exists added,
       table (db (run (handleSave e) w)) = (table (db w) ++ added)%list /\
       (List.length added <= 1)%nat /\
       forall r, In r added -> id r = fresh_id e) /\
  others row (table (db (run (handleDelete e row) w)))
  = others row (table (db w)) /\
  Spec.subsequence (table (db (run (handleDelete e row) w))) (table (db w)).
Proof.
  assert (Hup : table (Submit.uploaded e w) = table (db w))
    by (unfold Submit.uploaded; now destruct (image_file (form (ui w)))).
  split; [|split; [|split]].
  - intros t Ht. unfold run.
    destruct (Submit.upload_failure e w) as [m|] eqn:Hu.
    + rewrite (handleSave_upload_fails e w m Hu). now repeat split.
    + destruct (fault e (Submit.write_request e (ui w))) as [m|] eqn:Hw.
      * rewrite (handleSave_write_fails e w m Hu Hw). cbn [snd db].
        rewrite Hup. now repeat split.
      * rewrite (handleSave_succeeds e w Hu Hw).
        assert (Htable : table (db (refreshed e
                  {| ui := with_formOpen false
                             (with_form empty_form (with_editing None (ui w)));
                     db := Store.apply e (Submit.write_request e (ui w))
                             (Submit.uploaded e w);
                     sent := (sent w ++ Submit.upload_request e (ui w)
                                     ++ [Submit.write_request e (ui w)])%list;
                     toasts := (toasts w ++ [Submit.success_toast (ui w)])%list |}))
                = Store.update_rows (Submit.saved_payload e (ui w)) (id t)
                    (table (db w))).
        { unfold refreshed, Submit.write_request. rewrite Ht.
          destruct (fault e Select); cbn [db Store.apply table]; now rewrite Hup. }
        cbn [snd]. rewrite Htable. split; [apply others_update_rows|].
        apply id_update_rows.
  - intros Hnew. unfold run.
    destruct (Submit.upload_failure e w) as [m|] eqn:Hu.
    + rewrite (handleSave_upload_fails e w m Hu). exists [].
      cbn [snd db]. rewrite app_nil_r. repeat split; [cbn; lia | intros r []].
    + destruct (fault e (Submit.write_request e (ui w))) as [m|] eqn:Hw.
      * rewrite (handleSave_write_fails e w m Hu Hw). exists [].
        cbn [snd db]. rewrite app_nil_r, Hup.
        repeat split; [cbn; lia | intros r []].
      * rewrite (handleSave_succeeds e w Hu Hw).
        exists [Store.new_row e (Submit.saved_payload e (ui w))].
        unfold refreshed, Submit.write_request. rewrite Hnew.
        destruct (fault e Select); cbn [snd db Store.apply table]; rewrite Hup;
          (repeat split; [cbn; lia | intros r [<- | []]; reflexivity]).
  - unfold run. destruct (confirmed e) eqn:Hc.
    + destruct (fault e (Delete row)) as [m|] eqn:Hd.
      * now rewrite (handleDelete_fails e row w m Hc Hd).
      * rewrite (handleDelete_succeeds e row w Hc Hd). unfold refreshed.
        destruct (fault e Select); cbn [snd db table];
          apply (filter_twice (fun t => negb (String.eqb (id t) row))).
    + now rewrite (handleDelete_declined e row w Hc).
  - assert (Hrefl : forall l : list tire, Spec.subsequence l l)
      by (intros l; induction l; now constructor).
    unfold run. destruct (confirmed e) eqn:Hc.
    + destruct (fault e (Delete row)) as [m|] eqn:Hd.
      * rewrite (handleDelete_fails e row w m Hc Hd). apply Hrefl.
      * rewrite (handleDelete_succeeds e row w Hc Hd). unfold refreshed.
        destruct (fault e Select); cbn [snd db table];
          apply filter_subsequence.
    + rewrite (handleDelete_declined e row w Hc). apply Hrefl.
Qed.

Lemma X9_witness :
  let w := run (handleEdit Sample.zeta) Scene.shop in
  others "b2" (table (db (run (@handleSave Sample.engine Sample.fair) w)))
  = [Sample.acme] /\
  map id (table (db (run (@handleSave Sample.engine Sample.fair) w)))
  = ["a1"; "b2"].
Proof.
  cbv zeta.
  destruct (@X9_only_the_addressed_row Sample.engine Sample.fair
              (run (handleEdit Sample.zeta) Scene.shop) "b2") as (Hedit & _).
  destruct (Hedit Sample.zeta eq_refl) as (Hothers & Hids & _).
  split; [exact Hothers | exact Hids].
Defined.

(** X11.  Whatever the form holds, the quantity of the payload is a number
    and not NaN (zero, or a number that is not zero), and its price is never
    null, undefined, the empty string or NaN. *)
Theorem X11_payload_is_defined `{Engine} (e : env) (f : form_state) (image : value) :
  let p := make_payload e f image in
  exists n,
    p_quantity p = VNum n /\
    (n = Int 0 \/ number_truthy n = true) /\
    (p_price p = VNum (Int 0) \/ truthy (p_price p) = true) /\
    is_nullish (p_price p) = false.
Proof.
  cbv zeta. unfold make_payload. cbn [p_quantity p_price].
  exists (num_or (Number_ (f_quantity f)) (Int 0)). split; [reflexivity|].
  split; [|split].
  - unfold num_or. destruct (number_truthy (Number_ (f_quantity f))) eqn:Hq;
      [now right | now left].
  - unfold js_or. destruct (truthy (f_price f)) eqn:Hp; [now right | now left].
  - unfold js_or. destruct (truthy (f_price f)) eqn:Hp; [|reflexivity].
    now destruct (f_price f).
Qed.

(** *** A quantity typed in digits *)

Lemma digits_value_acc (d : Decimal.uint) (acc : positive) :
  Literal.digits_value (Z.pos acc) (NilEmpty.string_of_uint d)
  = Z.pos (Pos.of_uint_acc d acc).
Proof.
  revert acc. induction d; intros acc; cbn [NilEmpty.string_of_uint
    Literal.digits_value Pos.of_uint_acc]; [reflexivity|..];
    rewrite <- IHd; f_equal;
    try (match goal with
         | |- context [Literal.digit_value ?c] =>
             let v := eval vm_compute in (Literal.digit_value c) in
             change (Literal.digit_value c) with v
         end; lia).
Qed.

Lemma digits_value_uint (d : Decimal.uint) :
  Literal.digits_value 0 (NilEmpty.string_of_uint d) = Z.of_uint d.
Proof.
  unfold Z.of_uint.
  induction d; cbn [NilEmpty.string_of_uint Literal.digits_value Pos.of_uint];
    [reflexivity | exact IHd |..];
    match goal with
    | |- Literal.digits_value ?a _ = _ =>
        let a' := eval cbv in a in change a with a'
    end; apply digits_value_acc.
Qed.

Lemma digits_of_uint (d : Decimal.uint) :
  Literal.all_chars Literal.is_digit (NilEmpty.string_of_uint d) = true.
Proof. induction d; cbn [NilEmpty.string_of_uint Literal.all_chars]; auto. Qed.

(** The rendering of a natural number: digits, one at least, of its value. *)
Lemma rendering_of_uint (d : Decimal.uint) :
  let s := NilZero.string_of_uint d in
  Literal.some_chars Literal.is_digit s = true /\
  Literal.digits_value 0 s = Z.of_uint d /\
  Literal.strip_sign s = s.
Proof.
  cbv zeta. unfold NilZero.string_of_uint, Literal.some_chars.
  destruct d; try (split; [|split]; [reflexivity | reflexivity | reflexivity]);
    (split; [|split];
     [ cbn [NilEmpty.string_of_uint is_empty negb andb Literal.all_chars];
       now rewrite digits_of_uint
     | apply digits_value_uint
     | reflexivity ]).
Qed.

Lemma signed_integer_of_Z (z : Z) : Literal.signed_integer (of_Z z) = Some z.
Proof.
  unfold Literal.signed_integer, of_Z, NilZero.string_of_int.
  destruct z as [|p|p]; cbn [Z.to_int].
  - reflexivity.
  - destruct (rendering_of_uint (Pos.to_uint p)) as (Hd & Hv & Hs).
    rewrite Hs, Hd, Hv. unfold Z.of_uint.
    rewrite DecimalPos.Unsigned.of_to.
    unfold Literal.some_chars in Hd. apply andb_true_iff in Hd as [_ Hd].
    destruct (NilZero.string_of_uint (Pos.to_uint p)) as [|c r];
      [reflexivity|].
    cbn [Literal.all_chars] in Hd. apply andb_true_iff in Hd as [Hc _].
    destruct c as [[] [] [] [] [] [] [] []]; try discriminate Hc; reflexivity.
  - destruct (rendering_of_uint (Pos.to_uint p)) as (Hd & Hv & _).
    cbn [Literal.strip_sign]. rewrite Hd, Hv. unfold Z.of_uint.
    now rewrite DecimalPos.Unsigned.of_to.
Qed.

Lemma trim_solid (s : string) :
  Literal.all_chars (fun c => negb (is_space c)) s = true -> trim s = s.
Proof.
  intros H. unfold trim.
  assert (Hs : trimStart s = s).
  { destruct s as [|c r]; [reflexivity|]. cbn in *.
    apply andb_true_iff in H as [Hc _]. apply negb_true_iff in Hc. now rewrite Hc. }
  rewrite Hs. clear Hs. induction s as [|c r IH]; [reflexivity|].
  cbn in *. apply andb_true_iff in H as [Hc Hr]. apply negb_true_iff in Hc.
  now rewrite Hc, (IH Hr).
Qed.

Lemma digits_solid (s : string) :
  Literal.all_chars Literal.is_digit s = true ->
  Literal.all_chars (fun c => negb (is_space c)) s = true.
Proof.
  induction s as [|c r IH]; [reflexivity|]. cbn [Literal.all_chars].
  intros H. apply andb_true_iff in H as [Hc Hr]. rewrite (IH Hr), andb_true_r.
  destruct c as [[] [] [] [] [] [] [] []]; try reflexivity; discriminate Hc.
Qed.

Lemma of_Z_solid (z : Z) :
  Literal.all_chars (fun c => negb (is_space c)) (of_Z z) = true /\
  is_empty (of_Z z) = false.
Proof.
  unfold of_Z, NilZero.string_of_int.
  destruct z as [|p|p]; cbn [Z.to_int]; [split; reflexivity |..];
    destruct (rendering_of_uint (Pos.to_uint p)) as (Hd & _ & _);
    unfold Literal.some_chars in Hd; apply andb_true_iff in Hd as [Hne Hd];
    apply digits_solid in Hd.
  - split; [exact Hd | now apply negb_true_iff in Hne].
  - split; [cbn [Literal.all_chars]; now rewrite Hd | reflexivity].
Qed.

Lemma StringToNumber_of_Z `{Engine} (z : Z) (a b : string) :
  is_safe z = true ->
  Literal.all_chars is_space a = true ->
  Literal.all_chars is_space b = true ->
  StringToNumber (a ++ of_Z z ++ b) = Int z.
Proof.
  intros Hz Ha Hb. unfold StringToNumber. rewrite (trim_padded a _ b Ha Hb).
  destruct (of_Z_solid z) as (Hsolid & Hne).
  rewrite (trim_solid _ Hsolid), Hne, signed_integer_of_Z. now rewrite Hz.
Qed.

(** X10.  A quantity typed as the decimal digits of a safe integer, with a
    minus sign if it is negative and with any whitespace around, is written
    as that integer. *)
Theorem X10_typed_quantity_is_written `{Engine}
    (e : env) (f : form_state) (image : value) (z : Z) (a b : string) :
  is_safe z = true ->
  Literal.all_chars is_space a = true ->
  Literal.all_chars is_space b = true ->
  f_quantity f = VStr (a ++ of_Z z ++ b) ->
  p_quantity (make_payload e f image) = VNum (Int z).
Proof.
  intros Hz Ha Hb Hq. unfold make_payload. cbn [p_quantity]. rewrite Hq.
  cbn [Number_]. rewrite (StringToNumber_of_Z z a b Hz Ha Hb).
  unfold num_or, number_truthy. now destruct (Z.eqb_spec z 0) as [->|].
Qed.

Lemma X10_witness :
  p_quantity (@make_payload Sample.engine Sample.fair
                (Sample.draft (VStr "49.99") (VStr " 4 ")) VNull)
  = VNum (Int 4).
Proof.
  apply (@X10_typed_quantity_is_written Sample.engine Sample.fair
           (Sample.draft (VStr "49.99") (VStr " 4 ")) VNull 4 " " " ");
    reflexivity.
Defined.

(** *** The list after a reload *)

Lemma insert_desc_perm (t : tire) (l : list tire) :
  Permutation (Store.insert_desc t l) (t :: l).
Proof.
  induction l as [|u l IH]; cbn [Store.insert_desc]; [reflexivity|].
  destruct (created_at u <=? created_at t); [reflexivity|].
  rewrite IH. apply perm_swap.
Qed.

Lemma select_all_perm (rows : list tire) :
  Permutation (Store.select_all rows) rows.
Proof.
  unfold Store.select_all.
  induction rows as [|t rows IH]; cbn [fold_right]; [reflexivity|].
  rewrite insert_desc_perm. now constructor.
Qed.

Lemma insert_desc_sorted (t : tire) (l : list tire) :
  StronglySorted newest_first l ->
  StronglySorted newest_first (Store.insert_desc t l).
Proof.
  induction 1 as [|u l Hl IH Hu]; cbn [Store.insert_desc].
  - constructor; constructor.
  - destruct (Z.leb_spec (created_at u) (created_at t)) as [Hle | Hgt].
    + constructor; [now constructor|]. constructor; [exact Hle|].
      eapply Forall_impl; [|exact Hu]. unfold newest_first. intros x Hx. lia.
    + constructor; [exact IH|].
      apply (Permutation_Forall (Permutation_sym (insert_desc_perm t l))).
      constructor; [unfold newest_first; lia | exact Hu].
Qed.

Lemma select_all_sorted (rows : list tire) :
  StronglySorted newest_first (Store.select_all rows).
Proof.
  unfold Store.select_all.
  induction rows as [|t rows IH]; cbn [fold_right]; [constructor|].
  now apply insert_desc_sorted.
Qed.

(** X12.  After the list is loaded it holds the rows of the table, each
    once, the newest first; loading changes nothing in the backend, and
    loading again gives the same state. *)
Theorem X12_reload_shows_the_table (e : env) (w : world) :
  fault e Select = None ->
  let w' := run (fetchTires e) w in
  Permutation (tires (ui w')) (table (db w)) /\
  StronglySorted newest_first (tires (ui w')) /\
  skuCount (ui w') = List.length (table (db w)) /\
  db w' = db w /\
  ui (run (fetchTires e) w') = ui w'.
Proof.
  intros Hs w'. subst w'. unfold run. rewrite !fetchTires_refreshed.
  unfold refreshed. rewrite Hs. cbn [snd ui db tires with_tires idle with_loading].
  split; [apply select_all_perm|]. split; [apply select_all_sorted|].
  split; [|split; reflexivity].
  unfold skuCount. cbn [tires]. apply Permutation_length, select_all_perm.
Qed.

Lemma X12_witness :
  tires (ui (run (fetchTires Sample.fair)
               (boot {| table := [Sample.sold_out; Sample.acme; Sample.zeta];
                        bucket := [] |})))
  = [Sample.zeta; Sample.acme; Sample.sold_out].
Proof.
  destruct (X12_reload_shows_the_table Sample.fair
              (boot {| table := [Sample.sold_out; Sample.acme; Sample.zeta];
                       bucket := [] |}) eq_refl) as (_ & _ & _ & _ & _).
  reflexivity.
Defined.

(** *** Totals after a change *)

Lemma total_perm (l1 l2 : list tire) :
  Permutation l1 l2 ->
  Spec.total l1 = Spec.total l2 /\ Spec.magnitude l1 = Spec.magnitude l2.
Proof.
  unfold Spec.total, Spec.magnitude.
  induction 1 as [|x l1 l2 _ IH|x y l|l1 l2 l3 _ IH1 _ IH2]; cbn [fold_right].
  - split; reflexivity.
  - destruct IH. split; lia.
  - split; lia.
  - destruct IH1, IH2. split; lia.
Qed.

Lemma total_app (l1 l2 : list tire) :
  Spec.total (l1 ++ l2) = Spec.total l1 + Spec.total l2 /\
  Spec.magnitude (l1 ++ l2) = Spec.magnitude l1 + Spec.magnitude l2.
Proof.
  unfold Spec.total, Spec.magnitude.
  induction l1 as [|t l1 [IHt IHm]]; cbn [app fold_right]; split; lia.
Qed.

(** The total of a list that holds the rows [rows]. *)
Lemma inventoryCount_rows `{Engine} (s : state) (rows : list tire) :
  Permutation (tires s) rows ->
  Forall (fun t => integral t = true) rows ->
  Spec.magnitude rows <= safe_bound ->
  inventoryCount s = Int (Spec.total rows).
Proof.
  intros Hp Hi Hm. destruct (total_perm _ _ Hp) as (Ht & Hm').
  unfold inventoryCount. rewrite count_from.
  - now rewrite Ht.
  - apply (Permutation_Forall (Permutation_sym Hp)). exact Hi.
  - rewrite Hm'. simpl. lia.
Qed.

(** X13.  After a new record is saved and the list reloaded, the list holds
    the rows there were and the new row, the number of SKUs is one more, and,
    the quantities being integers within the safe range, the total of items
    is the total of the table before plus the quantity written. *)
Theorem X13_create_adds_to_totals `{Engine} (e : env) (w : world) (z : Z) :
  editing (ui w) = None ->
  Submit.upload_failure e w = None ->
  fault e (Submit.write_request e (ui w)) = None ->
  fault e Select = None ->
  let p := Submit.saved_payload e (ui w) in
  let w' := run (handleSave e) w in
  Permutation (tires (ui w')) (table (db w) ++ [Store.new_row e p]) /\
  skuCount (ui w') = S (List.length (table (db w))) /\
  (Forall (fun t => integral t = true) (table (db w)) ->
   p_quantity p = VNum (Int z) ->
   Spec.magnitude (table (db w)) + Z.abs z <= safe_bound ->
   inventoryCount (ui w') = Int (Spec.total (table (db w)) + z)).
Proof.
  intros Hnew Hu Hw Hs p w'.
  assert (Htires : tires (ui w')
                   = Store.select_all (table (db w) ++ [Store.new_row e p])).
  { subst w' p. unfold run. rewrite (handleSave_succeeds e w Hu Hw).
    unfold refreshed, Submit.write_request. rewrite Hs, Hnew.
    cbn [snd ui db tires with_tires idle with_loading Store.apply table].
    unfold Submit.uploaded. now destruct (image_file (form (ui w))). }
  assert (Hp : Permutation (tires (ui w')) (table (db w) ++ [Store.new_row e p]))
    by (rewrite Htires; apply select_all_perm).
  split; [exact Hp|]. split.
  - unfold skuCount. rewrite (Permutation_length Hp), length_app. cbn. lia.
  - intros Hi Hq Hm.
    assert (Hc : Spec.count_of (Store.new_row e p) = z)
      by (unfold Spec.count_of; cbn [Store.new_row quantity]; now rewrite Hq).
    rewrite (inventoryCount_rows _ _ Hp).
    + destruct (total_app (table (db w)) [Store.new_row e p]) as (-> & _).
      cbn [Spec.total fold_right]. rewrite Hc. f_equal. lia.
    + apply Forall_app. split; [exact Hi|]. constructor; [|constructor].
      unfold integral. cbn [Store.new_row quantity]. now rewrite Hq.
    + destruct (total_app (table (db w)) [Store.new_row e p]) as (_ & ->).
      cbn [Spec.magnitude fold_right]. rewrite Hc. lia.
Qed.

(** On an empty table, a record of quantity 4: one SKU, four items. *)
Lemma X13_witness :
  let w := Sample.drafting (Sample.draft (VStr "49.99") (VStr "4"))
             (Sample.world_of []) in
  let w' := run (@handleSave Sample.engine Sample.fair) w in
  skuCount (ui w') = 1%nat /\ @inventoryCount Sample.engine (ui w') = Int 4.
Proof.
  cbv zeta.
  destruct (@X13_create_adds_to_totals Sample.engine Sample.fair
              (Sample.drafting (Sample.draft (VStr "49.99") (VStr "4"))
                 (Sample.world_of [])) 4)
    as (_ & Hcount & Htotal); try reflexivity.
  split; [exact Hcount|].
  rewrite Htotal; [reflexivity | constructor | reflexivity | vm_compute; discriminate].
Defined.

Lemma delete_rows_absent (row : string) (rows : list tire) :
  ~ In row (map id rows) -> Store.delete_rows row rows = rows.
Proof.
  intros H. unfold Store.delete_rows. apply filter_all. intros t Ht.
  apply negb_true_iff, String.eqb_neq. intros Heq. apply H. rewrite <- Heq.
  now apply in_map.
Qed.

Lemma delete_rows_totals (t : tire) (rows : list tire) :
  NoDup (map id rows) -> In t rows ->
  Spec.total (Store.delete_rows (id t) rows) = Spec.total rows - Spec.count_of t /\
  Spec.magnitude (Store.delete_rows (id t) rows)
  = Spec.magnitude rows - Z.abs (Spec.count_of t) /\
  S (List.length (Store.delete_rows (id t) rows)) = List.length rows.
Proof.
  induction rows as [|u rows IH]; intros Hnd Hin; [destruct Hin|].
  cbn [map] in Hnd. apply NoDup_cons_iff in Hnd as [Hu Hnd].
  unfold Spec.total, Spec.magnitude in *.
  destruct Hin as [-> | Hin].
  - cbn [Store.delete_rows List.filter]. rewrite String.eqb_refl. cbn [negb].
    fold (Store.delete_rows (id t) rows). rewrite (delete_rows_absent _ _ Hu).
    cbn [fold_right List.length]. repeat split; lia.
  - cbn [Store.delete_rows List.filter].
    destruct (String.eqb_spec (id u) (id t)) as [Heq | Hne].
    + exfalso. apply Hu. rewrite Heq. now apply in_map.
    + cbn [negb]. fold (Store.delete_rows (id t) rows).
      destruct (IH Hnd Hin) as (IHt & IHm & IHl).
      cbn [fold_right List.length]. repeat split; lia.
Qed.

Lemma delete_rows_gone (row : string) (rows : list tire) :
  ~ In row (map id (Store.delete_rows row rows)).
Proof.
  intros H. apply in_map_iff in H as (t & Hid & Ht).
  unfold Store.delete_rows in Ht. apply filter_In in Ht as [_ Hne].
  apply negb_true_iff, String.eqb_neq in Hne. contradiction.
Qed.

(** X14.  After a confirmed delete of a record of a table with unique
    identifiers and the reload of the list, the identifier is no more in the
    list, every other row still is, the number of SKUs is one less, and, the
    quantities being integers within the safe range, the total of items is
    less by the quantity of the record. *)
Theorem X14_delete_takes_from_totals `{Engine} (e : env) (w : world) (t : tire) :
  confirmed e = true ->
  fault e (Delete (id t)) = None ->
  fault e Select = None ->
  NoDup (map id (table (db w))) ->
  In t (table (db w)) ->
  let w' := run (handleDelete e (id t)) w in
  ~ In (id t) (map id (tires (ui w'))) /\
  (forall u, In u (table (db w)) -> id u <> id t -> In u (tires (ui w'))) /\
  S (skuCount (ui w')) = List.length (table (db w)) /\
  (Forall (fun u => integral u = true) (table (db w)) ->
   Spec.magnitude (table (db w)) <= safe_bound ->
   inventoryCount (ui w') = Int (Spec.total (table (db w)) - Spec.count_of t)).
Proof.
  intros Hc Hd Hs Hnd Hin w'.
  assert (Htires : tires (ui w')
                   = Store.select_all (Store.delete_rows (id t) (table (db w)))).
  { subst w'. unfold run. rewrite (handleDelete_succeeds e (id t) w Hc Hd).
    unfold refreshed. now rewrite Hs. }
  pose proof (select_all_perm (Store.delete_rows (id t) (table (db w)))) as Hp.
  rewrite <- Htires in Hp.
  destruct (delete_rows_totals t _ Hnd Hin) as (Ht & Hm & Hl).
  split; [|split; [|split]].
  - intros Hi. apply (delete_rows_gone (id t) (table (db w))).
    eapply Permutation_in; [apply Permutation_map, Hp | exact Hi].
  - intros u Hu Hne. eapply Permutation_in; [apply Permutation_sym, Hp|].
    unfold Store.delete_rows. apply filter_In. split; [exact Hu|].
    now apply negb_true_iff, String.eqb_neq.
  - unfold skuCount. now rewrite (Permutation_length Hp).
  - intros Hi Hb. rewrite (inventoryCount_rows _ _ Hp).
    + now rewrite Ht.
    + apply Forall_forall. intros u Hu. unfold Store.delete_rows in Hu.
      apply filter_In in Hu as [Hu _]. now apply (proj1 (Forall_forall _ _) Hi).
    + rewrite Hm. lia.
Qed.

Lemma X14_witness :
  let w' := run (handleDelete Sample.fair "a1") Scene.shop in
  map id (tires (ui w')) = ["b2"] /\
  skuCount (ui w') = 1%nat /\
  @inventoryCount Sample.engine (ui w') = Int 5.
Proof.
  cbv zeta.
  destruct (@X14_delete_takes_from_totals Sample.engine Sample.fair Scene.shop
              Sample.acme) as (_ & _ & _ & Htotal); try reflexivity.
  - repeat constructor; cbn; intuition discriminate.
  - now left.
  - split; [reflexivity|]. split; [reflexivity|].
    change (run (handleDelete Sample.fair "a1") Scene.shop)
      with (run (handleDelete Sample.fair (id Sample.acme)) Scene.shop).
    rewrite Htotal; [reflexivity | repeat constructor | vm_compute; discriminate].
Defined.

(** *** The states the component goes through *)







Section Settled.
Context {E : Engine}.



Lemma run_while_open (m : M unit) (w : world) :
  run (s <- get_state ;; if formOpen s then m else ret tt) w
  = if formOpen (ui w) then run m w else w.
Proof. unfold run, bind, get_state, ret. now destruct (formOpen (ui w)). Qed.



End Settled.


(** *** Editing one field *)

(** X16.  For a record as in C2, opened for edit, with a text entered in one
    control other than the price and then saved: the row is the record with
    the column of that control replaced by what the text is written as (the
    text itself, or the number it converts to for the quantity) and with the
    update time of the submit; every other column is as before. *)
Theorem X16_edit_changes_one_column `{Engine}
    (e : env) (w : world) (t : tire) (c : control) (text : string) :
  In t (table (db w)) ->
  populated t = true ->
  c <> InPrice ->
  let opened := play [Edit t; Enter c text] w in
  let p := Submit.saved_payload e (ui opened) in
  fault e (Update p (id t)) = None ->
  let saved := play [Submit e] opened in
  Store.overwrite p t = set_column c (written c text) (touch (stamp e) t) /\
  table (db saved) = Store.update_rows p (id t) (table (db w)) /\
  In (set_column c (written c text) (touch (stamp e) t)) (table (db saved)).
Proof.
  intros Hin Hpop Hc opened p Hfault saved.
  assert (Hrow : Store.overwrite p t
                 = set_column c (written c text) (touch (stamp e) t)).
  { unfold populated in Hpop.
    repeat (apply andb_true_iff in Hpop as [Hpop ?]).
    subst p opened. open_world w.
    destruct c; try (now elim Hc);
      cbv beta iota zeta delta [play fold_left perform onChange set_control written];
      js_step;
      unfold Store.overwrite, touch, set_column, make_payload;
      cbn [p_sku p_brand p_model p_size p_ply p_price p_condition p_quantity
           p_notes p_image_path p_updated_at
           f_sku f_brand f_model f_size f_ply f_price f_condition f_quantity
           f_notes image_file
           id sku brand model size ply price condition quantity notes
           image_path created_at updated_at Number_];
      rewrite ?price_round_trip, ?quantity_round_trip, ?js_or_string by assumption;
      rewrite ?(js_or_truthy (condition t)) by assumption;
      reflexivity. }
  assert (Hopen : formOpen (ui opened) = true
                  /\ image_file (form (ui opened)) = None
                  /\ editing (ui opened) = Some t
                  /\ db opened = db w).
  { subst opened. open_world w. now destruct c. }
  destruct Hopen as (Ho & Hf & He & Hdb).
  assert (Hu : Submit.upload_failure e opened = None)
    by (unfold Submit.upload_failure; now rewrite Hf).
  assert (Hw : Submit.write_request e (ui opened) = Update p (id t))
    by (unfold Submit.write_request; now rewrite He).
  assert (Htable : table (db saved) = Store.update_rows p (id t) (table (db w))).
  { subst saved. unfold play. cbn [fold_left perform].
    rewrite run_while_open, Ho. unfold run at 1.
    rewrite (handleSave_succeeds e opened Hu) by (now rewrite Hw).
    rewrite Hw. unfold refreshed, Submit.uploaded. rewrite Hf, Hdb.
    destruct (fault e Select); reflexivity. }
  split; [exact Hrow|]. split; [exact Htable|].
  rewrite Htable, <- Hrow. unfold Store.update_rows. apply in_map_iff.
  exists t. split; [|exact Hin]. now rewrite String.eqb_refl.
Qed.

Lemma X16_witness :
  let opened := @play Sample.engine [Edit Sample.zeta; Enter InQuantity "7"]
                  Scene.shop in
  let p := @Submit.saved_payload Sample.engine Sample.fair (ui opened) in
  let saved := @play Sample.engine [Submit Sample.fair] opened in
  Store.overwrite p Sample.zeta
  = set_column InQuantity (@written Sample.engine InQuantity "7")
      (touch (stamp Sample.fair) Sample.zeta) /\
  table (db saved) = Store.update_rows p (id Sample.zeta) (table (db Scene.shop)) /\
  In (set_column InQuantity (@written Sample.engine InQuantity "7")
        (touch (stamp Sample.fair) Sample.zeta)) (table (db saved)).
Proof.
  apply (@X16_edit_changes_one_column Sample.engine Sample.fair Scene.shop
           Sample.zeta InQuantity "7").
  - right. now left.
  - reflexivity.
  - discriminate.
  - reflexivity.
Defined.

(** *** Retrying, adding after editing, cancelling *)

Section Retry.
Context {E : Engine}.

(** What a save leaves of the state and of the backend depends on the state
    and the backend only. *)
Lemma handleSave_frame (e : env) (w1 w2 : world) :
  ui w1 = ui w2 -> db w1 = db w2 ->
  ui (run (handleSave e) w1) = ui (run (handleSave e) w2) /\
  db (run (handleSave e) w1) = db (run (handleSave e) w2).
Proof.
  intros Hui Hdb.
  assert (Hu : Submit.upload_failure e w1 = Submit.upload_failure e w2)
    by (unfold Submit.upload_failure; now rewrite Hui, Hdb).
  assert (Hup : Submit.uploaded e w1 = Submit.uploaded e w2)
    by (unfold Submit.uploaded; now rewrite Hui, Hdb).
  unfold run. destruct (Submit.upload_failure e w2) as [m|] eqn:Hu2.
  - rewrite (handleSave_upload_fails e w1 m Hu), (handleSave_upload_fails e w2 m Hu2).
    cbn [snd ui db]. now rewrite Hui, Hdb.
  - destruct (fault e (Submit.write_request e (ui w2))) as [m|] eqn:Hw2.
    + rewrite (handleSave_write_fails e w2 m Hu2 Hw2).
      rewrite (handleSave_write_fails e w1 m Hu) by (now rewrite Hui).
      cbn [snd ui db]. now rewrite Hui, Hup.
    + rewrite (handleSave_succeeds e w2 Hu2 Hw2).
      rewrite (handleSave_succeeds e w1 Hu) by (now rewrite Hui).
      unfold refreshed. destruct (fault e Select); cbn [snd ui db];
        now rewrite Hui, Hup.
Qed.

(** X18.  A save that fails before anything is stored (the upload fails, or
    there is no file and the write fails) can be tried again as if it had not
    happened: from a state at rest, the state and the backend after the
    second try are those a first try would have left. *)
Theorem X18_failed_save_can_be_retried (e1 e2 : env) (w : world) (msg : string) :
  loading (ui w) = false ->
  Submit.upload_failure e1 w = Some msg \/
  image_file (form (ui w)) = None /\
  fault e1 (Submit.write_request e1 (ui w)) = Some msg ->
  ui (run (handleSave e2) (run (handleSave e1) w)) = ui (run (handleSave e2) w) /\
  db (run (handleSave e2) (run (handleSave e1) w)) = db (run (handleSave e2) w).
Proof.
  intros Hl Hfail. apply handleSave_frame.
  - unfold run. destruct Hfail as [Hu | [Hf Hw]].
    + rewrite (handleSave_upload_fails e1 w msg Hu). now apply idle_at_rest.
    + assert (Hu : Submit.upload_failure e1 w = None)
        by (unfold Submit.upload_failure; now rewrite Hf).
      rewrite (handleSave_write_fails e1 w msg Hu Hw). now apply idle_at_rest.
  - unfold run. destruct Hfail as [Hu | [Hf Hw]].
    + now rewrite (handleSave_upload_fails e1 w msg Hu).
    + assert (Hu : Submit.upload_failure e1 w = None)
        by (unfold Submit.upload_failure; now rewrite Hf).
      rewrite (handleSave_write_fails e1 w msg Hu Hw). cbn [snd db].
      unfold Submit.uploaded. now rewrite Hf.
Qed.

(** X17.  Add, pressed while a record is under edit, forgets the record: the
    form is the default draft under the title Add Tire and a save would
    insert; while a record is under edit the title is Edit Tire and a save
    updates that record.  Cancel after entries drops them: the form is closed
    on the default draft, nothing was sent and the backend is as it was. *)
Theorem X17_add_and_cancel_forget_the_edit
    (e : env) (w : world) (t : tire) (c : control) (text : string) :
  let editing_t := play [Edit t] w in
  let adding := play [Edit t; Add] w in
  let cancelled := play [Edit t; Enter c text; Cancel] w in
  (form_title (ui editing_t) = "Edit Tire" /\
   Submit.write_request e (ui editing_t)
   = Update (Submit.saved_payload e (ui editing_t)) (id t)) /\
  (form_title (ui adding) = "Add Tire" /\
   form (ui adding) = empty_form /\
   formOpen (ui adding) = true /\
   Submit.write_request e (ui adding) = Insert (Submit.saved_payload e (ui adding))) /\
  (ui cancelled
   = with_formOpen false (with_form empty_form (with_editing None (ui w))) /\
   db cancelled = db w /\ sent cancelled = sent w /\ toasts cancelled = toasts w).
Proof.
  cbv zeta. open_world w. repeat split.
Qed.

End Retry.

Lemma X18_witness :
  let w := Scene.adding_four in
  ui (run (@handleSave Sample.engine Sample.fair)
        (run (@handleSave Sample.engine Sample.offline) w))
  = ui (run (@handleSave Sample.engine Sample.fair) w) /\
  db (run (@handleSave Sample.engine Sample.fair)
        (run (@handleSave Sample.engine Sample.offline) w))
  = db (run (@handleSave Sample.engine Sample.fair) w).
Proof.
  apply (@X18_failed_save_can_be_retried Sample.engine Sample.offline
           Sample.fair Scene.adding_four "Failed to fetch").
  - reflexivity.
  - right. split; reflexivity.
Defined.
